(** * PsyCheck: the ingestion handler of [server.js]

  A shallow embedding of [router.post('/upload', ...)] and of the two
  SQLite tables it writes, followed by the properties of the ingestion
  contract.

  Layout of the development:
  - [Js]      JSON documents as JavaScript values: truthiness, property
              reads, [Object.keys];
  - [Sqlite]  the two tables of the schema and the three statements the
              handler prepares, with the parameter binding of the driver;
  - [Handler] the request handler itself, as a state-and-exception
              computation over the database, a fault oracle and a trace of
              the statements it executes;
  - [Startup] the opening of the database file and the creation of the
              tables when the server starts;
  - the theorems. *)

From Stdlib Require Import List String Ascii ZArith Bool Arith Lia DecimalString.
Import ListNotations.
Open Scope string_scope.
Open Scope list_scope.

(** ** Results of computations that may throw *)

Inductive result (E A : Type) : Type :=
| Ok (a : A)
| Err (e : E).
Arguments Ok {E A} a.
Arguments Err {E A} e.

(** ** JavaScript values that come out of [express.json()] *)
Module Js.

(** A parsed JSON document.  An object is the list of its own properties in
    the order [Object.keys] enumerates them.  Numbers are only tested for
    being zero and handed to the database driver, so they are kept as
    integers. *)
#[warnings="-register-all"]
Inductive json : Type :=
| JNull
| JBool (b : bool)
| JNum (n : Z)
| JStr (s : string)
| JArr (items : list json)
| JObj (props : list (string * json)).

(** A value read out of a document: [None] is [undefined]. *)
Definition jsval : Type := option json.
Definition undefined : jsval := None.

(** The exceptions the handler can meet.  Only a [SqliteError] carries a
    [code] property. *)
Inductive exn : Type :=
| TypeError (msg : string)
| RangeError (msg : string)
| SqliteError (code : string).

Definition exn_code (e : exn) : option string :=
  match e with
  | SqliteError c => Some c
  | TypeError _ | RangeError _ => None
  end.

(** [!!v] *)
Definition truthy (v : jsval) : bool :=
  match v with
  | None => false
  | Some JNull => false
  | Some (JBool b) => b
  | Some (JNum n) => negb (Z.eqb n 0)
  | Some (JStr s) => negb (String.eqb s "")
  | Some (JArr _) => true
  | Some (JObj _) => true
  end.

Fixpoint assoc (k : string) (props : list (string * json)) : jsval :=
  match props with
  | [] => None
  | (k', v) :: rest => if String.eqb k k' then Some v else assoc k rest
  end.

(** [v.name] for the four names the handler reads ([project], [quiz],
    [questions], [logic]); none of them is defined by a prototype, so on
    anything but an object the read gives [undefined], and on [null] or
    [undefined] it throws. *)
Definition get_prop (v : jsval) (name : string) : result exn jsval :=
  match v with
  | None =>
      Err (TypeError
        ("Cannot read properties of undefined (reading '" ++ name ++ "')"))
  | Some JNull =>
      Err (TypeError
        ("Cannot read properties of null (reading '" ++ name ++ "')"))
  | Some (JObj props) => Ok (assoc name props)
  | Some _ => Ok undefined
  end%string.

Definition index_key (i : nat) : string :=
  NilZero.string_of_uint (Nat.to_uint i).

Fixpoint indexed {A : Type} (i : nat) (l : list A) : list (string * A) :=
  match l with
  | [] => []
  | x :: rest => (index_key i, x) :: indexed (S i) rest
  end.

Fixpoint chars (s : string) : list json :=
  match s with
  | EmptyString => []
  | String c rest => JStr (String c EmptyString) :: chars rest
  end.

(** The own enumerable properties of a value, in [Object.keys] order:
    the properties of an object, the elements of an array under their
    indices, the characters of a string; numbers and booleans have none and
    [null] throws. *)
Definition own_entries (v : json) : result exn (list (string * json)) :=
  match v with
  | JNull => Err (TypeError "Cannot convert undefined or null to object")
  | JBool _ | JNum _ => Ok []
  | JStr s => Ok (indexed 0 (chars s))
  | JArr items => Ok (indexed 0 items)
  | JObj props => Ok props
  end.

(** [Object.keys(v)] *)
Definition object_keys (v : json) : result exn (list string) :=
  match own_entries v with
  | Ok es => Ok (map fst es)
  | Err e => Err e
  end.

(** [v[k]] for a key [k] taken from [Object.keys(v)]. *)
Definition get_own (v : json) (k : string) : jsval :=
  match own_entries v with
  | Ok es => assoc k es
  | Err _ => None
  end.

End Js.
Export Js.

(** ** The database: schema, parameter binding, statements *)
Module Sqlite.

(** What the driver hands to SQLite for one parameter. *)
Inductive sqlval : Type :=
| SqlNull
| SqlReal (n : Z)
| SqlText (s : string).

(** A value of a [TEXT] column: [None] is SQL [NULL]. *)
Definition text : Type := option string.

(** [definitions (project_name TEXT PRIMARY KEY, payload JSON)] *)
Record definition_row : Type := mk_definition {
  def_project_name : text;
  def_payload : sqlval
}.

(** [submissions (id TEXT PRIMARY KEY, project_name TEXT,
    timestamp DATETIME DEFAULT CURRENT_TIMESTAMP, payload JSON,
    FOREIGN KEY(project_name) REFERENCES definitions(project_name))] *)
Record submission_row : Type := mk_submission {
  sub_id : text;
  sub_project_name : text;
  sub_timestamp : string;
  sub_payload : sqlval
}.

Record database : Type := mk_database {
  definitions : list definition_row;
  submissions : list submission_row
}.

(** The driver binds numbers, strings and [null]/[undefined]; any other
    scalar is refused. *)
Definition bind_value (v : jsval) : result exn sqlval :=
  match v with
  | None | Some JNull => Ok SqlNull
  | Some (JNum n) => Ok (SqlReal n)
  | Some (JStr s) => Ok (SqlText s)
  | Some _ =>
      Err (TypeError
        "SQLite3 can only bind numbers, strings, bigints, buffers, and null")
  end.

(** One value for the next anonymous placeholder, when [bound] of the
    [nparams] placeholders of the statement have their value: the driver
    refuses a value it cannot bind, then a value no placeholder is left
    for. *)
Definition bind_next (nparams bound : nat) (v : jsval) : result exn sqlval :=
  match bind_value v with
  | Err e => Err e
  | Ok s =>
      if (bound <? nparams)%nat then Ok s
      else Err (RangeError "Too many parameter values were provided")
  end.

(** The elements of an array argument, bound one after the other; the
    first one refused stops the binding. *)
Fixpoint bind_array (nparams bound : nat) (items : list json)
  : result exn (list sqlval) :=
  match items with
  | [] => Ok []
  | x :: rest =>
      match bind_next nparams bound (Some x) with
      | Err e => Err e
      | Ok v =>
          match bind_array nparams (S bound) rest with
          | Err e => Err e
          | Ok vs => Ok (v :: vs)
          end
      end
  end.

(** The arguments of [run]/[get], bound from left to right: an array
    argument is spread over the anonymous placeholders, a plain object
    names parameters (the statements here have none, so it binds nothing,
    and a second object is refused), anything else is one anonymous
    parameter. *)
Fixpoint bind_each (nparams bound : nat) (args : list jsval)
    (bound_object : bool) : result exn (list sqlval) :=
  match args with
  | [] => Ok []
  | Some (JArr items) :: rest =>
      match bind_array nparams bound items with
      | Err e => Err e
      | Ok vs =>
          match bind_each nparams (bound + List.length vs) rest
                  bound_object with
          | Err e => Err e
          | Ok ws => Ok (vs ++ ws)%list
          end
      end
  | Some (JObj _) :: rest =>
      if bound_object
      then Err (TypeError
             "You cannot specify named parameters in two different objects")
      else bind_each nparams bound rest true
  | a :: rest =>
      match bind_next nparams bound a with
      | Err e => Err e
      | Ok v =>
          match bind_each nparams (S bound) rest bound_object with
          | Err e => Err e
          | Ok ws => Ok (v :: ws)
          end
      end
  end.

(** Binding succeeds when exactly the [nparams] placeholders of the
    statement receive a value. *)
Definition bind_args (nparams : nat) (args : list jsval)
  : result exn (list sqlval) :=
  match bind_each nparams 0 args false with
  | Err e => Err e
  | Ok vs =>
      if (List.length vs <? nparams)%nat
      then Err (RangeError "Too few parameter values were provided")
      else if (nparams <? List.length vs)%nat
      then Err (RangeError "Too many parameter values were provided")
      else Ok vs
  end.

(** [a = b] in SQL: never true when a side is [NULL]. *)
Definition text_eqb (a b : text) : bool :=
  match a, b with
  | Some x, Some y => String.eqb x y
  | _, _ => false
  end.

Section Affinity.

(** The text SQLite writes for a number stored in a [TEXT] column. *)
Variable real_to_text : Z -> string.

Definition text_affinity (v : sqlval) : text :=
  match v with
  | SqlNull => None
  | SqlReal n => Some (real_to_text n)
  | SqlText s => Some s
  end.

End Affinity.

(** [SELECT 1 FROM definitions WHERE project_name = ?] *)
Definition select_definition (k : text) (defs : list definition_row) : bool :=
  existsb (fun r => text_eqb (def_project_name r) k) defs.

(** [INSERT OR REPLACE INTO definitions (project_name, payload)]: the rows
    in conflict on the primary key are deleted, then the new row is
    inserted.  The parent key of any submission is present again when the
    statement ends, so the foreign key does not object. *)
Definition replace_definition (k : text) (payload : sqlval)
    (defs : list definition_row) : list definition_row :=
  (filter (fun r => negb (text_eqb (def_project_name r) k)) defs
    ++ [mk_definition k payload])%list.

Definition SQLITE_CONSTRAINT_PRIMARYKEY : string :=
  "SQLITE_CONSTRAINT_PRIMARYKEY".
Definition SQLITE_CONSTRAINT_FOREIGNKEY : string :=
  "SQLITE_CONSTRAINT_FOREIGNKEY".

(** [INSERT INTO submissions (id, project_name, payload)]: refused on a
    primary-key conflict, then on a dangling foreign key; otherwise the row
    is appended with the current timestamp. *)
Definition insert_submission (now : string) (id k : text) (payload : sqlval)
    (d : database) : result exn database :=
  if existsb (fun r => text_eqb (sub_id r) id) (submissions d)
  then Err (SqliteError SQLITE_CONSTRAINT_PRIMARYKEY)
  else
    match k with
    | Some _ =>
        if select_definition k (definitions d)
        then Ok (mk_database (definitions d)
                   (submissions d ++ [mk_submission id k now payload])%list)
        else Err (SqliteError SQLITE_CONSTRAINT_FOREIGNKEY)
    | None =>
        Ok (mk_database (definitions d)
              (submissions d ++ [mk_submission id k now payload])%list)
    end.

End Sqlite.
Export Sqlite.

(** ** The request handler *)
Module Handler.

(** One statement executed against the database, with the values bound to
    its placeholders after column affinity. *)
Inductive db_event : Type :=
| UpsertDefinition (project_name : text) (payload : sqlval)
| SelectDefinition (project_name : text)
| InsertSubmission (id project_name : text) (payload : sqlval).

(** [INSERT] and [INSERT OR REPLACE] write, [SELECT] does not. *)
Definition is_mutation (ev : db_event) : bool :=
  match ev with
  | UpsertDefinition _ _ => true
  | SelectDefinition _ => false
  | InsertSubmission _ _ _ => true
  end.

(** What the handler runs in: the database, the faults the storage layer is
    about to raise (one entry per statement executed, [Some code] for a
    statement that fails with that SQLite error code, nothing left for a
    healthy store) and the statements executed so far. *)
Record state : Type := mk_state {
  db : database;
  faults : list (option string);
  trace : list db_event
}.

(** The surroundings of one request: the value of [CURRENT_TIMESTAMP] and the
    faults of the storage layer during the request. *)
Record env : Type := mk_env {
  now : string;
  env_faults : list (option string)
}.

(** [res.status(code).send(text)] *)
Record response : Type := send {
  status : Z;
  sent : string
}.

(** Computations of the handler: they read and write the state and may
    throw. *)
Definition M (A : Type) : Type := state -> result exn A * state.

Definition ret {A : Type} (a : A) : M A := fun s => (Ok a, s).

Definition bind {A B : Type} (m : M A) (k : A -> M B) : M B :=
  fun s =>
    match m s with
    | (Ok a, s') => k a s'
    | (Err e, s') => (Err e, s')
    end.

Definition throw {A : Type} (e : exn) : M A := fun s => (Err e, s).

Definition lift {A : Type} (r : result exn A) : M A :=
  fun s => (r, s).

(** [try { m } catch (err) { h err }] *)
Definition try_catch {A : Type} (m : M A) (h : exn -> M A) : M A :=
  fun s =>
    match m s with
    | (Ok a, s') => (Ok a, s')
    | (Err e, s') => h e s'
    end.

Declare Scope handler_scope.
Delimit Scope handler_scope with handler.
Notation "x <- m ;; k" := (bind m (fun x => k))
  (at level 61, m at next level, right associativity) : handler_scope.
Notation "m ;;; k" := (bind m (fun _ => k))
  (at level 61, right associativity) : handler_scope.
Open Scope handler_scope.

Definition log (ev : db_event) : M unit :=
  fun s => (Ok tt, mk_state (db s) (faults s) (trace s ++ [ev])).

(** The storage layer fails the statement when the oracle says so. *)
Definition step_fault : M unit :=
  fun s =>
    match faults s with
    | [] => (Ok tt, s)
    | None :: rest => (Ok tt, mk_state (db s) rest (trace s))
    | Some code :: rest =>
        (Err (SqliteError code), mk_state (db s) rest (trace s))
    end.

Definition read_db : M database := fun s => (Ok (db s), s).

Definition write_db (d : database) : M unit :=
  fun s => (Ok tt, mk_state d (faults s) (trace s)).

(** [content.project || (content.quiz && content.quiz.project)] *)
Definition project_name (content : jsval) : result exn jsval :=
  match get_prop content "project" with
  | Err e => Err e
  | Ok p =>
      if truthy p then Ok p
      else
        match get_prop content "quiz" with
        | Err e => Err e
        | Ok q => if truthy q then get_prop q "project" else Ok q
        end
  end.

(** The test [content.questions || content.logic] *)
Definition is_definition (content : jsval) : result exn bool :=
  match get_prop content "questions" with
  | Err e => Err e
  | Ok q =>
      if truthy q then Ok true
      else
        match get_prop content "logic" with
        | Err e => Err e
        | Ok l => Ok (truthy l)
        end
  end.

Section Upload.

(** [JSON.stringify] *)
Variable JSON_stringify : json -> string.

(** The text SQLite writes for a number stored in a [TEXT] column. *)
Variable real_to_text : Z -> string.

(** [db.prepare('INSERT OR REPLACE INTO definitions (project_name, payload)
    VALUES (?, ?)').run(...args)].  The [payload] column keeps the text bound
    to it: the serialisation of a document with a key is no numeric
    literal. *)
Definition run_replace_definition (args : list jsval) : M unit :=
  vs <- lift (bind_args 2 args) ;;
  match vs with
  | [k; p] =>
      let key := text_affinity real_to_text k in
      log (UpsertDefinition key p) ;;;
      step_fault ;;;
      d <- read_db ;;
      write_db (mk_database (replace_definition key p (definitions d))
                  (submissions d))
  | _ => throw (RangeError "Too few parameter values were provided")
  end.

(** [db.prepare('SELECT 1 FROM definitions WHERE project_name = ?')
    .get(...args)], as the truthiness of the row it returns. *)
Definition get_definition (args : list jsval) : M bool :=
  vs <- lift (bind_args 1 args) ;;
  match vs with
  | [k] =>
      let key := text_affinity real_to_text k in
      log (SelectDefinition key) ;;;
      step_fault ;;;
      d <- read_db ;;
      ret (select_definition key (definitions d))
  | _ => throw (RangeError "Too few parameter values were provided")
  end.

(** [db.prepare('INSERT INTO submissions (id, project_name, payload)
    VALUES (?, ?, ?)').run(...args)] *)
Definition run_insert_submission (now : string) (args : list jsval) : M unit :=
  vs <- lift (bind_args 3 args) ;;
  match vs with
  | [i; k; p] =>
      let id := text_affinity real_to_text i in
      let key := text_affinity real_to_text k in
      log (InsertSubmission id key p) ;;;
      step_fault ;;;
      d <- read_db ;;
      d' <- lift (insert_submission now id key p d) ;;
      write_db d'
  | _ => throw (RangeError "Too few parameter values were provided")
  end.

(** The body of the [try] block of [router.post('/upload', ...)], on the
    document [express.json()] left in [req.body].  The [console.log] lines
    are left out: they write nothing to the database, and the one value
    they could fail to print, a project name that is an object, is refused
    by the driver as well. *)
Definition upload_try (now : string) (body : json) : M response :=
  rootKeys <- lift (object_keys body) ;;
  match rootKeys with
  | [] => ret (send 400 "Empty JSON")
  | uniqueID :: _ =>
      let content := get_own body uniqueID in
      projectName <- lift (project_name content) ;;
      if negb (truthy projectName)
      then ret (send 400 "Invalid JSON: 'project' field missing.")
      else
        definition <- lift (is_definition content) ;;
        if definition : bool
        then
          run_replace_definition
            [projectName; Some (JStr (JSON_stringify body))] ;;;
          ret (send 200 "Definition Saved")
        else
          defCheck <- get_definition [projectName] ;;
          if negb defCheck
          then ret (send 412
                 "Precondition Failed: Project definition not found")
          else
            try_catch
              (run_insert_submission now
                 [Some (JStr uniqueID); projectName;
                  Some (JStr (JSON_stringify body))] ;;;
               ret (send 200 "OK"))
              (fun err =>
                 match exn_code err with
                 | Some code =>
                     if String.eqb code SQLITE_CONSTRAINT_PRIMARYKEY
                     then ret (send 200 "Already Saved")
                     else throw err
                 | None => throw err
                 end)
  end.

(** The exception the [try] block ends with, if any. *)
Definition thrown (e : env) (body : json) (d : database) : option exn :=
  match upload_try (now e) body (mk_state d (env_faults e) []) with
  | (Ok _, _) => None
  | (Err x, _) => Some x
  end.

(** [router.post('/upload', ...)]: the [try] block, and
    [catch (e) { return res.status(500).send("Internal Server Error") }]. *)
Definition upload (e : env) (body : json) (d : database) : response * state :=
  match upload_try (now e) body (mk_state d (env_faults e) []) with
  | (Ok r, s) => (r, s)
  | (Err _, s) => (send 500 "Internal Server Error", s)
  end.

(** The database a sequence of requests leaves behind. *)
Fixpoint serve (reqs : list (env * json)) (d : database) : database :=
  match reqs with
  | [] => d
  | (e, body) :: rest => serve rest (db (snd (upload e body d)))
  end.

End Upload.

End Handler.
Export Handler.

(** ** Queries and classifications used by the statements *)

(** The own property of a document under a name, if it has one. *)
Definition field (c : json) (name : string) : jsval :=
  match c with
  | JObj props => assoc name props
  | _ => None
  end.

(** The same below a value that may be [undefined]. *)
Definition subfield (v : jsval) (name : string) : jsval :=
  match v with
  | Some c => field c name
  | None => None
  end.

(** The content carries a truthy [questions] or a truthy [logic] field. *)
Definition carries_definition (c : json) : bool :=
  truthy (field c "questions") || truthy (field c "logic").

(** The rows of [definitions] a [WHERE project_name = k] selects. *)
Definition definitions_of (k : text) (defs : list definition_row)
  : list definition_row :=
  filter (fun r => text_eqb (def_project_name r) k) defs.

(** The rows of [submissions] a [WHERE id = k] selects. *)
Definition submissions_with_id (k : text) (subs : list submission_row)
  : list submission_row :=
  filter (fun r => text_eqb (sub_id r) k) subs.

(** The number of writing statements in a trace. *)
Definition mutations (t : list db_event) : nat :=
  List.length (filter is_mutation t).

(** An exception of the storage layer, as opposed to one of the JavaScript
    run time or of the driver's parameter binding. *)
Definition storage_fault (x : exn) : bool :=
  match x with
  | SqliteError _ => true
  | TypeError _ | RangeError _ => false
  end.

(** The outcomes of an ingestion. *)
Inductive outcome : Type :=
| DefinitionStored
| SubmissionStored
| DuplicateSubmission
| MalformedInput
| MissingProjectName
| UnknownProject
| Exception (x : exn).

(** The outcome of a request, told from the document and the database by
    the steps of the ingestion contract, not from the answer sent: an
    exception when the request ended with one; malformed input when the
    document has no top-level key; a missing project name when the project
    name read from the content is falsy; a stored definition when the
    content carries [questions] or [logic]; for a submission, an unknown
    project when the project name has no definition row before the
    request, else a stored or a duplicate submission according to whether
    the table gained a row. *)
Definition classify (real_to_text : Z -> string) (body : json)
    (before : database) (after : state) (x : option exn) : outcome :=
  match x with
  | Some x => Exception x
  | None =>
      match object_keys body with
      | Err e => Exception e
      | Ok [] => MalformedInput
      | Ok (uid :: _) =>
          match project_name (get_own body uid) with
          | Err e => Exception e
          | Ok p =>
              if negb (truthy p) then MissingProjectName
              else
                match is_definition (get_own body uid) with
                | Err e => Exception e
                | Ok true => DefinitionStored
                | Ok false =>
                    match bind_args 1 [p] with
                    | Err e => Exception e
                    | Ok [] =>
                        Exception
                          (RangeError "Too few parameter values were provided")
                    | Ok (k :: _) =>
                        if select_definition (text_affinity real_to_text k)
                             (definitions before)
                        then
                          if (List.length (submissions before)
                                <? List.length (submissions (db after)))%nat
                          then SubmissionStored
                          else DuplicateSubmission
                        else UnknownProject
                    end
                end
          end
      end
  end.

(** ** Instances for the examples *)

(** Decimal digits of an integer. *)
Definition decimal (n : Z) : string :=
  NilZero.string_of_int (Z.to_int n).

Definition quote : string := String (ascii_of_nat 34) EmptyString.

(** A compact JSON printer to stand for [JSON.stringify] in the examples;
    it leaves the characters of strings as they are. *)
#[warnings="-register-all"]
Fixpoint compact (j : json) : string :=
  match j with
  | JNull => "null"
  | JBool true => "true"
  | JBool false => "false"
  | JNum n => decimal n
  | JStr s => quote ++ s ++ quote
  | JArr items =>
      "[" ++ (fix elems (l : list json) : string :=
                match l with
                | [] => ""
                | [x] => compact x
                | x :: rest => compact x ++ "," ++ elems rest
                end) items ++ "]"
  | JObj props =>
      "{" ++ (fix members (l : list (string * json)) : string :=
                match l with
                | [] => ""
                | [(k, v)] => quote ++ k ++ quote ++ ":" ++ compact v
                | (k, v) :: rest =>
                    quote ++ k ++ quote ++ ":" ++ compact v ++ ","
                      ++ members rest
                end) props ++ "}"
  end%string.

(** SQLite renders an integral real with one decimal. *)
Definition real_text (n : Z) : string := (decimal n ++ ".0")%string.

Definition upload0 : env -> json -> database -> response * state :=
  upload compact real_text.

Definition empty_db : database := mk_database [] [].

Definition quiet : env := mk_env "2025-01-01 00:00:00" [].

(** The documents of the scenario: a definition for [Proj], a submission
    to it, a submission to a project nobody defined. *)
Definition proj_definition : json :=
  JObj [("Proj-1",
         JObj [("project", JStr "Proj"); ("questions", JArr [JNum 1])])].

Definition sub_1 : json :=
  JObj [("Sub-1",
         JObj [("project", JStr "Proj"); ("answers", JArr [JNum 1])])].

Definition sub_ghost : json :=
  JObj [("Sub-2",
         JObj [("project", JStr "Ghost"); ("answers", JArr [JNum 1])])].

(** The database once [proj_definition] is stored. *)
Definition db_proj : database :=
  mk_database
    [mk_definition (Some "Proj") (SqlText (compact proj_definition))] [].

(** [{"X": {"questions": [1]}}]: the fields of a definition, no project. *)
Definition questions_only : json := JObj [("questions", JArr [JNum 1])].
Definition no_project_definition : json := JObj [("X", questions_only)].

(** [{"Proj-1": {...}, "extra": 1}]: two top-level keys. *)
Definition two_keys : json :=
  JObj [("Proj-1",
         JObj [("project", JStr "Proj"); ("questions", JArr [JNum 1])]);
        ("extra", JNum 1)].

(** [{"X": null}] and [{"Sub-1": null}] *)
Definition null_content : json := JObj [("X", JNull)].

(** [{"X": {"answers": [1]}}]: neither [project] nor [quiz]. *)
Definition no_project : json :=
  JObj [("X", JObj [("answers", JArr [JNum 1])])].


(** ** Opening the database when the server starts *)
Module Startup.

(** A database file: each of the two tables is there, with its rows, or
    is not. *)
Record db_file : Type := mk_file {
  definitions_table : option (list definition_row);
  submissions_table : option (list submission_row)
}.

(** What the file at [DB_PATH] holds: a database, or something SQLite does
    not read as one. *)
Inductive file_state : Type :=
| NotADatabase
| Database (f : db_file).

(** What start-up looks at on the disk: whether the directory of [DB_PATH]
    exists, and the file when there is one. *)
Record disk : Type := mk_disk {
  dir_exists : bool;
  file : option file_state
}.

(** The surroundings of a start-up: whether [mkdirSync] creates the
    directory or throws, and the fault, if any, with which the storage
    layer fails the opening of the file and each of the two [db.exec]
    calls ([Some code] for a call that fails with that SQLite code). *)
Record boot : Type := mk_boot {
  mkdir : bool;
  open_fault : option string;
  definitions_fault : option string;
  submissions_fault : option string
}.

(** [try { if (!fs.existsSync(dbDir)) fs.mkdirSync(dbDir, ...) }
    catch (e) { console.error(...) }]: the exception of [mkdirSync] is
    caught and start-up goes on. *)
Definition ensure_directory (b : boot) (k : disk) : disk :=
  if dir_exists k then k
  else if mkdir b then mk_disk true (file k)
  else k.

(** [new Database(DB_PATH)]: the driver refuses a path whose directory does
    not exist; the file is created, empty, when it is missing. *)
Definition open_database (b : boot) (k : disk) : result exn file_state :=
  if dir_exists k
  then
    match open_fault b with
    | Some code => Err (SqliteError code)
    | None =>
        Ok (match file k with
            | Some content => content
            | None => Database (mk_file None None)
            end)
    end
  else Err (TypeError
         "Cannot open database because the directory does not exist").

(** A statement run on the file: refused when the storage layer fails, and
    when the file is not a database. *)
Definition exec (fault : option string) (run : db_file -> db_file)
    (content : file_state) : result exn file_state :=
  match fault with
  | Some code => Err (SqliteError code)
  | None =>
      match content with
      | NotADatabase => Err (SqliteError "SQLITE_NOTADB")
      | Database f => Ok (Database (run f))
      end
  end.

(** [CREATE TABLE IF NOT EXISTS definitions (...)] *)
Definition create_definitions (f : db_file) : db_file :=
  match definitions_table f with
  | Some _ => f
  | None => mk_file (Some []) (submissions_table f)
  end.

(** [CREATE TABLE IF NOT EXISTS submissions (...)] *)
Definition create_submissions (f : db_file) : db_file :=
  match submissions_table f with
  | Some _ => f
  | None => mk_file (definitions_table f) (Some [])
  end.

(** Lines 13 to 44 of [server.js]: the directory, the handle, the two
    [db.exec] calls, none of them in a [try] but the first.  The result is
    the disk the server runs on. *)
Definition startup (b : boot) (k : disk) : result exn disk :=
  match open_database b (ensure_directory b k) with
  | Err x => Err x
  | Ok opened =>
      match exec (definitions_fault b) create_definitions opened with
      | Err x => Err x
      | Ok with_definitions =>
          match exec (submissions_fault b) create_submissions
                  with_definitions with
          | Err x => Err x
          | Ok ready => Ok (mk_disk true (Some ready))
          end
      end
  end.

(** The storage layer raises no fault during start-up. *)
Definition healthy (b : boot) : Prop :=
  open_fault b = None /\ definitions_fault b = None
  /\ submissions_fault b = None.

(** The rows a disk holds in each table: none when the table, or the
    database, is not there. *)
Definition rows_of_definitions (k : disk) : list definition_row :=
  match file k with
  | Some (Database f) =>
      match definitions_table f with
      | Some rows => rows
      | None => []
      end
  | _ => []
  end.

Definition rows_of_submissions (k : disk) : list submission_row :=
  match file k with
  | Some (Database f) =>
      match submissions_table f with
      | Some rows => rows
      | None => []
      end
  | _ => []
  end.

(** The database the handler works on, once both tables exist. *)
Definition tables (k : disk) : option database :=
  match file k with
  | Some (Database f) =>
      match definitions_table f, submissions_table f with
      | Some defs, Some subs => Some (mk_database defs subs)
      | _, _ => None
      end
  | _ => None
  end.

(** The disk that holds a database. *)
Definition stored (d : database) : disk :=
  mk_disk true
    (Some (Database (mk_file (Some (definitions d))
                       (Some (submissions d))))).

End Startup.
Export Startup.

(** More documents and surroundings for the examples. *)
Definition serve0 : list (env * json) -> database -> database :=
  serve compact real_text.

(** A store that fails its first statement, and one that fails its
    second. *)
Definition disk_full : env :=
  mk_env "2025-01-01 00:00:00" [Some "SQLITE_FULL"].
Definition disk_full_on_insert : env :=
  mk_env "2025-01-01 00:00:00" [None; Some "SQLITE_FULL"].

(** [{"Ghost-1": {"project": "Ghost", "logic": [1]}}] *)
Definition ghost_definition : json :=
  JObj [("Ghost-1",
         JObj [("project", JStr "Ghost"); ("logic", JArr [JNum 1])])].

(** [sub_1] with a second top-level key, and with another field in its
    content. *)
Definition sub_1_second_key : json :=
  JObj [("Sub-1",
         JObj [("project", JStr "Proj"); ("answers", JArr [JNum 1])]);
        ("Sub-9", JNull)].
Definition sub_1_note : json :=
  JObj [("Sub-1",
         JObj [("project", JStr "Proj"); ("answers", JArr [JNum 2]);
               ("note", JStr "late")])].

(** The row [sub_1] leaves and the database that holds it. *)
Definition sub_1_row : submission_row :=
  mk_submission (Some "Sub-1") (Some "Proj") "2025-01-01 00:00:00"
    (SqlText (compact sub_1)).
Definition db_sub : database :=
  mk_database (definitions db_proj) [sub_1_row].

(** [[{"project": "Proj", "answers": [1]}]] and
    [[{"project": "Proj", "answers": [2]}, 7]] *)
Definition answers_1 : json :=
  JObj [("project", JStr "Proj"); ("answers", JArr [JNum 1])].
Definition answers_2 : json :=
  JObj [("project", JStr "Proj"); ("answers", JArr [JNum 2])].

(** A start-up with a storage layer that raises no fault, [mkdirSync]
    creating the directory or not. *)
Definition boot_ok (mkdir : bool) : boot := mk_boot mkdir None None None.

(** [{"B": {"project": true, "answers": [1]}}]: a project name the driver
    does not bind. *)
Definition boolean_project : json :=
  JObj [("B", JObj [("project", JBool true); ("answers", JArr [JNum 1])])].

(** [{"A": {"project": [null], "questions": [1]}}]: a project name the
    driver binds to NULL. *)
Definition null_project : json :=
  JObj [("A",
         JObj [("project", JArr [JNull]); ("questions", JArr [JNum 1])])].


(** ** Properties *)

Ltac unfold_handler :=
  unfold upload, thrown, upload_try, run_replace_definition, get_definition,
    run_insert_submission, try_catch, bind, lift, ret, throw, log, step_fault,
    read_db, write_db in *.

(** Case analysis on the innermost test the handler is stuck on. *)
Ltac split_match :=
  match goal with
  | |- context [match ?x with _ => _ end] =>
      lazymatch x with
      | context [match _ with _ => _ end] => fail
      | _ => destruct x eqn:?
      end
  end.

Ltac handler_cases tac :=
  unfold_handler; cbn [now env_faults db faults trace];
  repeat (split_match;
          cbn [fst snd db faults trace app negb exn_code] in *;
          try discriminate; try tac).

(** *** Reading the envelope *)

Lemma first_entry (body : json) (uid : string) (c : json)
    (rest : list (string * json)) :
  own_entries body = Ok ((uid, c) :: rest) ->
  object_keys body = Ok (uid :: map fst rest) /\ get_own body uid = Some c.
Proof.
  intros H. unfold object_keys, get_own. rewrite H. cbn.
  now rewrite String.eqb_refl.
Qed.

(** *** Parameter binding *)

(** A project name that binds alone to the placeholder of the [SELECT] binds
    to the same value in front of, or between, strings. *)
Lemma bind_args_project (p : jsval) (kv : sqlval) (u s : string) :
  bind_args 1 [p] = Ok [kv] ->
  bind_args 2 [p; Some (JStr s)] = Ok [kv; SqlText s] /\
  bind_args 3 [Some (JStr u); p; Some (JStr s)]
    = Ok [SqlText u; kv; SqlText s].
Proof.
  unfold bind_args. intros H.
  destruct p as [[ | b | n | t | items | props]|];
    try (cbn in *; try discriminate; inversion H; subst; now split).
  destruct items as [|x [|y r]];
    cbn [bind_each bind_array] in *; unfold bind_next in *.
  - cbn in H. discriminate.
  - destruct (bind_value (Some x)) as [v|]; cbn in *; [|discriminate].
    inversion H; subst. now split.
  - exfalso.
    destruct (bind_value (Some x)) as [v|], (bind_value (Some y)) as [w|];
      cbn in H; discriminate.
Qed.

(** The driver's own errors carry no SQLite code. *)
Lemma bind_value_err (v : jsval) (x : exn) :
  bind_value v = Err x -> exn_code x = None.
Proof. destruct v as [[]|]; cbn; intros H; inversion H; reflexivity. Qed.

Lemma bind_next_err (n b : nat) (v : jsval) (x : exn) :
  bind_next n b v = Err x -> exn_code x = None.
Proof.
  unfold bind_next. destruct (bind_value v) eqn:V.
  - destruct (b <? n)%nat; [discriminate|].
    intros H; inversion H; reflexivity.
  - intros H; inversion H; subst. eapply bind_value_err; eassumption.
Qed.

Lemma bind_array_err (n b : nat) (items : list json) (x : exn) :
  bind_array n b items = Err x -> exn_code x = None.
Proof.
  revert b. induction items as [|i items IH]; intros b; cbn [bind_array];
    [discriminate|].
  destruct (bind_next n b (Some i)) eqn:V.
  - destruct (bind_array n (S b) items) eqn:A; [discriminate|].
    intros H; inversion H; subst. eapply IH; eassumption.
  - intros H; inversion H; subst. eapply bind_next_err; eassumption.
Qed.

Lemma bind_each_err (n b : nat) (args : list jsval) (o : bool) (x : exn) :
  bind_each n b args o = Err x -> exn_code x = None.
Proof.
  revert b o. induction args as [|a args IH]; intros b o; cbn [bind_each];
    [discriminate|].
  assert (scalar :
    match bind_next n b a with
    | Ok v => match bind_each n (S b) args o with
              | Ok ws => Ok (v :: ws)
              | Err e => Err e
              end
    | Err e => Err e
    end = Err x -> exn_code x = None).
  { destruct (bind_next n b a) eqn:V.
    - destruct (bind_each n (S b) args o) eqn:B; [discriminate|].
      intros H; inversion H; subst. eapply IH; eassumption.
    - intros H; inversion H; subst. eapply bind_next_err; eassumption. }
  destruct a as [[ | | | | items | props]|]; try exact scalar.
  - destruct (bind_array n b items) as [vs|] eqn:A.
    + destruct (bind_each n (b + List.length vs) args o) eqn:B;
        [discriminate|].
      intros H; inversion H; subst. eapply IH; eassumption.
    + intros H; inversion H; subst. eapply bind_array_err; eassumption.
  - destruct o; [intros H; inversion H; reflexivity|apply IH].
Qed.

Lemma bind_args_err (n : nat) (args : list jsval) (x : exn) :
  bind_args n args = Err x -> exn_code x = None.
Proof.
  unfold bind_args. destruct (bind_each n 0 args false) eqn:B.
  - destruct (_ <? _)%nat; [intros H; inversion H; reflexivity|].
    destruct (_ <? _)%nat; [intros H; inversion H; reflexivity|discriminate].
  - intros H; inversion H; subst. eapply bind_each_err; eassumption.
Qed.

(** *** Selections *)

Lemma filter_nil_existsb {A : Type} (f : A -> bool) (l : list A) :
  filter f l = [] <-> existsb f l = false.
Proof.
  induction l as [|x l IH]; cbn; [tauto|].
  destruct (f x); cbn; [split; discriminate | exact IH].
Qed.

Lemma text_eqb_eq (a b : text) :
  text_eqb a b = true <-> exists s, a = Some s /\ b = Some s.
Proof.
  destruct a as [x|], b as [y|]; cbn; split;
    try discriminate; try (intros [s [L R]]; discriminate).
  - intros E. apply String.eqb_eq in E. subst. now exists y.
  - intros [s [L R]]. inversion L; inversion R; subst. apply String.eqb_refl.
Qed.

(** Case analysis on the whole run of a request: the result of the [try]
    block is named, then every test on the way to it is split. *)
Ltac by_paths :=
  unfold upload, thrown; cbv zeta;
  match goal with
  | |- context [upload_try ?f ?g ?n ?b ?s] =>
      let E := fresh "E" in
      destruct (upload_try f g n b s) as [[?|?] ?] eqn:E; revert E
  end;
  handler_cases idtac;
  let E := fresh "E" in
  intros E; inversion E; subst; clear E;
  try match goal with
      | B : bind_args _ _ = Err ?x, C : exn_code ?x = Some _ |- _ =>
          rewrite (bind_args_err _ _ _ B) in C; discriminate C
      end.

Section Properties.

Variable JSON_stringify : json -> string.
Variable real_to_text : Z -> string.

Abbreviation upload := (upload JSON_stringify real_to_text).
Abbreviation thrown := (thrown JSON_stringify real_to_text).
Abbreviation serve := (serve JSON_stringify real_to_text).
Abbreviation key := (text_affinity real_to_text).
Abbreviation payload_of body := (SqlText (JSON_stringify body)).

(** *** The paths of the handler, one lemma each *)

Lemma upload_empty (e : env) (body : json) (d : database) :
  object_keys body = Ok [] ->
  upload e body d = (send 400 "Empty JSON", mk_state d (env_faults e) []).
Proof. intros H. unfold_handler. now rewrite H. Qed.

Lemma upload_missing_project (e : env) (body : json) (d : database)
    (uid : string) (c : json) (rest : list (string * json)) (p : jsval) :
  own_entries body = Ok ((uid, c) :: rest) ->
  project_name (Some c) = Ok p ->
  truthy p = false ->
  upload e body d
    = (send 400 "Invalid JSON: 'project' field missing.",
       mk_state d (env_faults e) []).
Proof.
  intros H P T. destruct (first_entry _ _ _ _ H) as [K C].
  unfold_handler. now rewrite K, C, P, T.
Qed.

Lemma upload_definition (e : env) (body : json) (d : database)
    (uid : string) (c : json) (rest : list (string * json)) (p : jsval)
    (kv : sqlval) :
  env_faults e = [] ->
  own_entries body = Ok ((uid, c) :: rest) ->
  project_name (Some c) = Ok p ->
  truthy p = true ->
  is_definition (Some c) = Ok true ->
  bind_args 1 [p] = Ok [kv] ->
  upload e body d
    = (send 200 "Definition Saved",
       mk_state
         (mk_database
            (replace_definition (key kv) (payload_of body) (definitions d))
            (submissions d))
         []
         [UpsertDefinition (key kv) (payload_of body)]).
Proof.
  intros F H P T D B. destruct (first_entry _ _ _ _ H) as [K C].
  destruct (bind_args_project p kv uid (JSON_stringify body) B) as [B2 _].
  unfold_handler. now rewrite K, C, P, T, D, B2, F.
Qed.

Lemma upload_unknown_project (e : env) (body : json) (d : database)
    (uid : string) (c : json) (rest : list (string * json)) (p : jsval)
    (kv : sqlval) :
  env_faults e = [] ->
  own_entries body = Ok ((uid, c) :: rest) ->
  project_name (Some c) = Ok p ->
  truthy p = true ->
  is_definition (Some c) = Ok false ->
  bind_args 1 [p] = Ok [kv] ->
  select_definition (key kv) (definitions d) = false ->
  upload e body d
    = (send 412 "Precondition Failed: Project definition not found",
       mk_state d [] [SelectDefinition (key kv)]).
Proof.
  intros F H P T D B S. destruct (first_entry _ _ _ _ H) as [K C].
  unfold_handler. rewrite K, C, P, T, D, B, F. cbn. rewrite S. cbn.
  now destruct d.
Qed.

Lemma upload_new_submission (e : env) (body : json) (d : database)
    (uid : string) (c : json) (rest : list (string * json)) (p : jsval)
    (kv : sqlval) :
  env_faults e = [] ->
  own_entries body = Ok ((uid, c) :: rest) ->
  project_name (Some c) = Ok p ->
  truthy p = true ->
  is_definition (Some c) = Ok false ->
  bind_args 1 [p] = Ok [kv] ->
  select_definition (key kv) (definitions d) = true ->
  submissions_with_id (Some uid) (submissions d) = [] ->
  upload e body d
    = (send 200 "OK",
       mk_state
         (mk_database (definitions d)
            (submissions d
               ++ [mk_submission (Some uid) (key kv) (now e) (payload_of body)]))
         []
         [SelectDefinition (key kv);
          InsertSubmission (Some uid) (key kv) (payload_of body)]).
Proof.
  intros F H P T D B S N. destruct (first_entry _ _ _ _ H) as [K C].
  destruct (bind_args_project p kv uid (JSON_stringify body) B) as [_ B3].
  apply filter_nil_existsb in N.
  unfold_handler. rewrite K, C, P, T, D, B, F. cbn. rewrite S, B3. cbn.
  unfold insert_submission. cbn [submissions definitions]. rewrite N, S.
  now destruct (key kv).
Qed.

Lemma upload_duplicate_submission (e : env) (body : json) (d : database)
    (uid : string) (c : json) (rest : list (string * json)) (p : jsval)
    (kv : sqlval) :
  env_faults e = [] ->
  own_entries body = Ok ((uid, c) :: rest) ->
  project_name (Some c) = Ok p ->
  truthy p = true ->
  is_definition (Some c) = Ok false ->
  bind_args 1 [p] = Ok [kv] ->
  select_definition (key kv) (definitions d) = true ->
  submissions_with_id (Some uid) (submissions d) <> [] ->
  upload e body d
    = (send 200 "Already Saved",
       mk_state d []
         [SelectDefinition (key kv);
          InsertSubmission (Some uid) (key kv) (payload_of body)]).
Proof.
  intros F H P T D B S N. destruct (first_entry _ _ _ _ H) as [K C].
  destruct (bind_args_project p kv uid (JSON_stringify body) B) as [_ B3].
  assert (X : existsb (fun r => text_eqb (sub_id r) (Some uid))
                (submissions d) = true).
  { destruct (existsb _ (submissions d)) eqn:E; [reflexivity|].
    apply filter_nil_existsb in E. now elim N. }
  unfold_handler. rewrite K, C, P, T, D, B, F. cbn. rewrite S, B3. cbn.
  unfold insert_submission. cbn [submissions]. rewrite X. cbn.
  now destruct d.
Qed.

(** *** What every request does, whatever the document *)

Lemma insert_submission_ok (t : string) (id k : text) (p : sqlval)
    (d d' : database) :
  insert_submission t id k p d = Ok d' ->
  d' = mk_database (definitions d)
         (submissions d ++ [mk_submission id k t p]) /\
  existsb (fun r => text_eqb (sub_id r) id) (submissions d) = false.
Proof.
  unfold insert_submission. intros H.
  destruct (existsb _ (submissions d)); [discriminate|].
  destruct k; [destruct (select_definition _ _); [|discriminate]|];
    inversion H; now split.
Qed.

(** A request leaves [submissions] as it is or appends one row under an
    [id] no row had. *)
Lemma upload_submissions (e : env) (body : json) (d : database) :
  let d' := db (snd (upload e body d)) in
  submissions d' = submissions d \/
  exists row,
    submissions d' = submissions d ++ [row] /\
    existsb (fun r => text_eqb (sub_id r) (sub_id row)) (submissions d)
      = false.
Proof.
  by_paths; cbn [fst snd db]; try (now left).
  all: right;
    match goal with
    | H : insert_submission _ _ _ _ _ = Ok _ |- _ =>
        apply insert_submission_ok in H; destruct H as [-> X]
    end;
    eexists; cbn [submissions sub_id]; split; [reflexivity|exact X].
Qed.

Lemma submissions_with_id_app (k : text) (l : list submission_row)
    (row : submission_row) :
  submissions_with_id k l <> [] ->
  existsb (fun r => text_eqb (sub_id r) (sub_id row)) l = false ->
  submissions_with_id k (l ++ [row]) = submissions_with_id k l.
Proof.
  intros N X. unfold submissions_with_id in *. rewrite filter_app. cbn.
  destruct (text_eqb (sub_id row) k) eqn:E; [|apply app_nil_r].
  apply text_eqb_eq in E. destruct E as [s [E1 E2]]. subst k.
  rewrite E1 in X. apply filter_nil_existsb in X. now elim N.
Qed.

(** Once an [id] has its rows, no later request changes them. *)
Lemma serve_submissions_with_id (k : text) (reqs : list (env * json))
    (d : database) :
  submissions_with_id k (submissions d) <> [] ->
  submissions_with_id k (submissions (serve reqs d))
    = submissions_with_id k (submissions d).
Proof.
  revert d. induction reqs as [|[e body] reqs IH]; intros d N; [reflexivity|].
  cbn [Handler.serve].
  assert (S : submissions_with_id k (submissions (db (snd (upload e body d))))
              = submissions_with_id k (submissions d)).
  { destruct (upload_submissions e body d) as [E | [row [E X]]];
      rewrite E; [reflexivity|]. now apply submissions_with_id_app. }
  rewrite IH; rewrite S; auto.
Qed.

(** *** Reading fields *)

Lemma get_prop_field (c : json) (name : string) :
  c <> JNull -> get_prop (Some c) name = Ok (field c name).
Proof. intros N. destruct c; cbn; try reflexivity. now elim N. Qed.

Lemma project_name_not_null (c : json) (p : jsval) :
  project_name (Some c) = Ok p -> c <> JNull.
Proof. intros H ->. discriminate. Qed.

Lemma is_definition_field (c : json) :
  c <> JNull -> is_definition (Some c) = Ok (carries_definition c).
Proof.
  intros N. unfold is_definition, carries_definition.
  rewrite !get_prop_field by assumption.
  now destruct (truthy (field c "questions")).
Qed.

Lemma truthy_not_null (v : jsval) (name : string) :
  truthy v = true -> get_prop v name = Ok (subfield v name).
Proof. destruct v as [[]|]; cbn; intros H; try reflexivity; discriminate. Qed.

(** [content.project || (content.quiz && content.quiz.project)] on a content
    that is not [null], in terms of its fields. *)
Lemma project_name_field (c : json) :
  c <> JNull ->
  project_name (Some c)
    = Ok (if truthy (field c "project") then field c "project"
          else if truthy (field c "quiz")
               then subfield (field c "quiz") "project"
               else field c "quiz").
Proof.
  intros N. unfold project_name. rewrite !get_prop_field by assumption.
  destruct (truthy (field c "project")); [reflexivity|].
  destruct (truthy (field c "quiz")) eqn:Q; [|reflexivity].
  now apply truthy_not_null.
Qed.

(** *** Replacing a definition *)

Lemma filter_negb_filter {A : Type} (f : A -> bool) (l : list A) :
  filter f (filter (fun r => negb (f r)) l) = [].
Proof.
  induction l as [|x l IH]; cbn; [reflexivity|].
  destruct (f x) eqn:E; cbn; [exact IH|]. now rewrite E.
Qed.

Lemma filter_twice {A : Type} (g : A -> bool) (l : list A) :
  filter g (filter g l) = filter g l.
Proof.
  induction l as [|x l IH]; cbn; [reflexivity|].
  destruct (g x) eqn:E; cbn; [|exact IH]. now rewrite E, IH.
Qed.

Lemma definitions_of_replace (s : string) (p : sqlval)
    (defs : list definition_row) :
  definitions_of (Some s) (replace_definition (Some s) p defs)
    = [mk_definition (Some s) p].
Proof.
  unfold definitions_of, replace_definition. rewrite filter_app.
  rewrite (filter_negb_filter
             (fun r => text_eqb (def_project_name r) (Some s))).
  cbn. now rewrite String.eqb_refl.
Qed.

Lemma replace_definition_twice (s : string) (p : sqlval)
    (defs : list definition_row) :
  replace_definition (Some s) p (replace_definition (Some s) p defs)
    = replace_definition (Some s) p defs.
Proof.
  unfold replace_definition. rewrite filter_app, filter_twice.
  cbn. rewrite String.eqb_refl. cbn. now rewrite app_nil_r.
Qed.

Lemma select_replace (k k' : text) (p : sqlval)
    (defs : list definition_row) :
  select_definition k defs = true ->
  select_definition k (replace_definition k' p defs) = true.
Proof.
  unfold select_definition, replace_definition. intros H.
  rewrite existsb_app. apply existsb_exists in H. destruct H as [r [I E]].
  destruct (text_eqb (def_project_name r) k') eqn:X.
  - apply text_eqb_eq in E. destruct E as [s [E1 E2]].
    apply text_eqb_eq in X. destruct X as [s' [X1 X2]].
    assert (s' = s) by congruence. subst. cbn.
    rewrite String.eqb_refl. apply orb_true_r.
  - apply orb_true_iff. left. apply existsb_exists. exists r. split; auto.
    apply filter_In. split; auto. now rewrite X.
Qed.

(** A request leaves [definitions] as it is or replaces one definition. *)
Lemma upload_definitions (e : env) (body : json) (d : database) :
  let d' := db (snd (upload e body d)) in
  definitions d' = definitions d \/
  exists k p, definitions d' = replace_definition k p (definitions d).
Proof.
  by_paths; cbn [fst snd db definitions]; try (now left);
    try (right; eexists; eexists; reflexivity).
  all: left;
    match goal with
    | H : insert_submission _ _ _ _ _ = Ok _ |- _ =>
        apply insert_submission_ok in H; destruct H as [-> _]
    end;
    reflexivity.
Qed.

(** A project that has a definition keeps one, whatever is uploaded. *)
Lemma serve_select_definition (k : text) (reqs : list (env * json))
    (d : database) :
  select_definition k (definitions d) = true ->
  select_definition k (definitions (serve reqs d)) = true.
Proof.
  revert d. induction reqs as [|[e body] reqs IH]; intros d S; [exact S|].
  cbn [Handler.serve]. apply IH.
  destruct (upload_definitions e body d) as [E | [k' [p E]]]; rewrite E;
    [exact S | now apply select_replace].
Qed.

(** Rewriting with the tests met on the way to a leaf of the handler. *)
Ltac use_tests :=
  repeat match goal with
         | H : negb (select_definition _ _) = true |- _ =>
             rewrite negb_true_iff in H
         | H : negb (select_definition _ _) = false |- _ =>
             rewrite negb_false_iff in H
         end;
  repeat match goal with
         | H : object_keys _ = _ |- _ => rewrite H
         | H : project_name _ = _ |- _ => rewrite H
         | H : negb (truthy _) = _ |- _ => rewrite H
         | H : is_definition _ = _ |- _ => rewrite H
         | H : bind_args 1 _ = _ |- _ => rewrite H
         | H : select_definition _ _ = _ |- _ => rewrite H
         end.

(** What the request did in each outcome of [classify]. *)
Lemma classify_meaning (e : env) (body : json) (d : database) :
  let after := snd (upload e body d) in
  let o := classify real_to_text body d after (thrown e body d) in
  (o = DefinitionStored ->
     exists k p,
       trace after = [UpsertDefinition k p] /\
       db after = mk_database (replace_definition k p (definitions d))
                    (submissions d)) /\
  (o = SubmissionStored ->
     exists row,
       db after = mk_database (definitions d) (submissions d ++ [row]) /\
       submissions_with_id (sub_id row) (submissions d) = []) /\
  (o = DuplicateSubmission -> db after = d) /\
  (o = MalformedInput -> db after = d /\ trace after = []) /\
  (o = MissingProjectName -> db after = d /\ trace after = []) /\
  (o = UnknownProject ->
     db after = d /\ exists k, trace after = [SelectDefinition k]).
Proof.
  by_paths.
  all: unfold classify; cbn [trace db fst snd]; use_tests.
  all: repeat match goal with
       | H : insert_submission _ _ _ _ _ = Ok _ |- _ =>
           apply insert_submission_ok in H; destruct H as [-> X];
           apply filter_nil_existsb in X;
           cbn [submissions]; rewrite length_app; cbn [List.length];
           replace (List.length (submissions d)
                      <? List.length (submissions d) + 1)%nat with true
             by (symmetry; apply Nat.ltb_lt; lia)
       end.
  all: rewrite ?Nat.ltb_irrefl.
  all: repeat match goal with |- _ /\ _ => split end; intro O;
    try discriminate O.
  all: try (destruct d; reflexivity).
  all: solve [eauto 10].
Qed.

(** *** The claims *)

(** C1 (as amended).  A document with a first key whose content yields a
    truthy project name the driver can bind, and carries a truthy
    [questions] or [logic] field, is stored as a definition and answered
    200 "Definition Saved" whatever the database holds, as long as the
    storage layer raises no fault: the only statement executed is the
    upsert, the [SELECT] of the "unknown project" path is never run. *)
Theorem definition_stored_whatever_the_store
    (e : env) (body : json) (uid : string) (c : json)
    (rest : list (string * json)) (p : jsval) (kv : sqlval) :
  env_faults e = [] ->
  own_entries body = Ok ((uid, c) :: rest) ->
  project_name (Some c) = Ok p ->
  truthy p = true ->
  bind_args 1 [p] = Ok [kv] ->
  carries_definition c = true ->
  forall d : database,
    upload e body d
      = (send 200 "Definition Saved",
         mk_state
           (mk_database
              (replace_definition (key kv) (payload_of body) (definitions d))
              (submissions d))
           []
           [UpsertDefinition (key kv) (payload_of body)]).
Proof.
  intros F H P T B D d.
  apply (upload_definition e body d uid c rest p kv); auto.
  rewrite is_definition_field by (eapply project_name_not_null; eauto).
  now rewrite D.
Qed.

(** C2.  A submission document whose project has a stored definition, sent
    under a unique ID no row has yet, is answered 200 "OK" and adds exactly
    one row.  After any further requests the project still has its
    definition and the one row of that ID is still the first one, payload
    included; every submission document then sent under the same unique ID,
    its project having a definition, is answered 200 "Already Saved" and
    leaves the database as it is. *)
Theorem submission_recorded_once
    (e : env) (body : json) (d : database) (uid : string) (c : json)
    (rest : list (string * json)) (p : jsval) (kv : sqlval) :
  env_faults e = [] ->
  own_entries body = Ok ((uid, c) :: rest) ->
  project_name (Some c) = Ok p ->
  truthy p = true ->
  carries_definition c = false ->
  bind_args 1 [p] = Ok [kv] ->
  select_definition (key kv) (definitions d) = true ->
  submissions_with_id (Some uid) (submissions d) = [] ->
  let row := mk_submission (Some uid) (key kv) (now e) (payload_of body) in
  let d1 := db (snd (upload e body d)) in
  fst (upload e body d) = send 200 "OK" /\
  submissions d1 = submissions d ++ [row] /\
  submissions_with_id (Some uid) (submissions d1) = [row] /\
  forall reqs : list (env * json),
    let d2 := serve reqs d1 in
    select_definition (key kv) (definitions d2) = true /\
    submissions_with_id (Some uid) (submissions d2) = [row] /\
    forall (e' : env) (body' : json) (c' : json)
           (rest' : list (string * json)) (p' : jsval) (kv' : sqlval),
      env_faults e' = [] ->
      own_entries body' = Ok ((uid, c') :: rest') ->
      project_name (Some c') = Ok p' ->
      truthy p' = true ->
      carries_definition c' = false ->
      bind_args 1 [p'] = Ok [kv'] ->
      select_definition (key kv') (definitions d2) = true ->
      fst (upload e' body' d2) = send 200 "Already Saved" /\
      db (snd (upload e' body' d2)) = d2.
Proof.
  intros F H P T D B S N row d1.
  assert (I : is_definition (Some c) = Ok false).
  { rewrite is_definition_field by (eapply project_name_not_null; eauto).
    now rewrite D. }
  assert (U := upload_new_submission e body d uid c rest p kv F H P T I B S N).
  assert (R1 : submissions_with_id (Some uid) (submissions d1) = [row]).
  { subst d1. rewrite U. cbn [snd db submissions].
    unfold submissions_with_id in *. rewrite filter_app, N. cbn.
    now rewrite String.eqb_refl. }
  subst d1. rewrite U in *. cbn [fst snd db submissions] in *.
  split; [reflexivity|]. split; [reflexivity|]. split; [exact R1|].
  intros reqs.
  match goal with |- context [serve reqs ?x] => set (d2 := serve reqs x) end.
  assert (R2 : submissions_with_id (Some uid) (submissions d2) = [row]).
  { subst d2. rewrite serve_submissions_with_id; cbn [submissions];
      rewrite R1; [reflexivity|discriminate]. }
  split; [apply serve_select_definition; exact S|]. split; [exact R2|].
  intros e' body' c' rest' p' kv' F' H' P' T' D' B' S'.
  assert (I' : is_definition (Some c') = Ok false).
  { rewrite is_definition_field by (eapply project_name_not_null; eauto).
    now rewrite D'. }
  assert (N' : submissions_with_id (Some uid) (submissions d2) <> []).
  { rewrite R2. discriminate. }
  rewrite (upload_duplicate_submission e' body' d2 uid c' rest' p' kv'
             F' H' P' T' I' B' S' N').
  now cbn.
Qed.

(** C3 (as amended).  A submission document whose project name the driver
    binds, and binds to a name with no stored definition, is answered 412
    and changes nothing: the database is the one before the request, the
    submissions in particular, and no writing statement is executed. *)
Theorem unknown_project_rejected
    (e : env) (body : json) (d : database) (uid : string) (c : json)
    (rest : list (string * json)) (p : jsval) (kv : sqlval) :
  env_faults e = [] ->
  own_entries body = Ok ((uid, c) :: rest) ->
  project_name (Some c) = Ok p ->
  truthy p = true ->
  carries_definition c = false ->
  bind_args 1 [p] = Ok [kv] ->
  select_definition (key kv) (definitions d) = false ->
  fst (upload e body d)
    = send 412 "Precondition Failed: Project definition not found" /\
  db (snd (upload e body d)) = d /\
  submissions (db (snd (upload e body d))) = submissions d /\
  mutations (trace (snd (upload e body d))) = 0%nat.
Proof.
  intros F H P T D B S.
  assert (I : is_definition (Some c) = Ok false).
  { rewrite is_definition_field by (eapply project_name_not_null; eauto).
    now rewrite D. }
  rewrite (upload_unknown_project e body d uid c rest p kv F H P T I B S).
  now cbn.
Qed.

(** C4 (as amended).  For a project name the driver binds to a text:
    uploading a definition document leaves exactly one definition row
    for its project, holding the whole document, whatever row the project
    had before; uploading the same document again leaves the same single
    row and the same database. *)
Theorem definition_upload_idempotent
    (e1 e2 : env) (body : json) (d : database) (uid : string) (c : json)
    (rest : list (string * json)) (p : jsval) (kv : sqlval) (s : string) :
  env_faults e1 = [] ->
  env_faults e2 = [] ->
  own_entries body = Ok ((uid, c) :: rest) ->
  project_name (Some c) = Ok p ->
  truthy p = true ->
  carries_definition c = true ->
  bind_args 1 [p] = Ok [kv] ->
  key kv = Some s ->
  let d1 := db (snd (upload e1 body d)) in
  let d2 := db (snd (upload e2 body d1)) in
  definitions_of (Some s) (definitions d1)
    = [mk_definition (Some s) (payload_of body)] /\
  definitions_of (Some s) (definitions d2)
    = [mk_definition (Some s) (payload_of body)] /\
  d2 = d1.
Proof.
  intros F1 F2 H P T D B K d1 d2.
  assert (I : is_definition (Some c) = Ok true).
  { rewrite is_definition_field by (eapply project_name_not_null; eauto).
    now rewrite D. }
  subst d2 d1.
  rewrite (upload_definition e1 body d uid c rest p kv F1 H P T I B).
  cbn [snd db].
  rewrite (upload_definition e2 body _ uid c rest p kv F2 H P T I B).
  cbn [snd db definitions submissions]. rewrite K.
  rewrite replace_definition_twice, definitions_of_replace. auto.
Qed.

(** C5 (as amended).  A document is answered 400 "Empty JSON" exactly when
    it has no top-level key, and then nothing is executed and the database
    is unchanged; a document with two or more keys is not refused for it. *)
Theorem malformed_iff_no_key (e : env) (body : json) (d : database) :
  (fst (upload e body d) = send 400 "Empty JSON"
     <-> object_keys body = Ok []) /\
  (fst (upload e body d) = send 400 "Empty JSON" ->
     snd (upload e body d) = mk_state d (env_faults e) []).
Proof.
  split; [split|].
  - by_paths; cbn [fst]; intros R; try discriminate R; reflexivity.
  - intros K. now rewrite upload_empty.
  - by_paths; cbn [fst snd]; intros R; try discriminate R; reflexivity.
Qed.

(** C6 (as amended).  For a document with a first key whose content is not
    [null] and has no [project] field: if [quiz.project] is absent too, the
    answer is 400 "'project' field missing" and nothing is executed; if
    [quiz.project] is present, it is the project name the handler goes on
    with. *)
Theorem missing_project_rejected
    (e : env) (body : json) (d : database) (uid : string) (c : json)
    (rest : list (string * json)) :
  own_entries body = Ok ((uid, c) :: rest) ->
  c <> JNull ->
  field c "project" = None ->
  (subfield (field c "quiz") "project" = None ->
     upload e body d
       = (send 400 "Invalid JSON: 'project' field missing.",
          mk_state d (env_faults e) [])) /\
  (forall v : json,
     subfield (field c "quiz") "project" = Some v ->
     project_name (get_own body uid) = Ok (Some v)).
Proof.
  intros H N P. destruct (first_entry _ _ _ _ H) as [_ C]. split.
  - intros Q.
    apply (upload_missing_project e body d uid c rest
             (if truthy (field c "quiz")
              then subfield (field c "quiz") "project"
              else field c "quiz")); auto.
    + rewrite project_name_field by assumption. now rewrite P.
    + destruct (truthy (field c "quiz")) eqn:T; [now rewrite Q|exact T].
  - intros v Q. rewrite C, project_name_field by assumption. rewrite P.
    cbn [truthy].
    destruct (field c "quiz") as [[ | | | | | props]|];
      cbn in Q |- *; try discriminate Q. now rewrite Q.
Qed.


(** C8.  A request executes at most one writing statement, one definition
    upsert or one submission insert, and a request that executes none
    leaves the database as it was. *)
Theorem at_most_one_mutation (e : env) (body : json) (d : database) :
  (mutations (trace (snd (upload e body d))) <= 1)%nat /\
  (db (snd (upload e body d)) = d
   \/ mutations (trace (snd (upload e body d))) = 1%nat).
Proof.
  by_paths; cbn [fst snd db trace]; cbn; split; auto.
Qed.

(** C9.  When the value under the first top-level key is [null], reading
    the project name throws a [TypeError]: the answer is 500 "Internal
    Server Error", not a 400, no statement is executed and the database is
    unchanged. *)
Theorem null_content_internal_error
    (e : env) (body : json) (d : database) (uid : string)
    (rest : list (string * json)) :
  own_entries body = Ok ((uid, JNull) :: rest) ->
  upload e body d
    = (send 500 "Internal Server Error", mk_state d (env_faults e) []) /\
  thrown e body d = Some (TypeError "Cannot read properties of null (reading 'project')").
Proof.
  intros H. destruct (first_entry _ _ _ _ H) as [K C].
  unfold_handler. now rewrite K, C.
Qed.


End Properties.

(** ** The theorems at the documents of the scenario *)

(** The scenario: a definition, a submission to it, the same submission
    again, a submission to an unknown project. *)
Example scenario :
  let d1 := db (snd (upload0 quiet proj_definition empty_db)) in
  let d2 := db (snd (upload0 quiet sub_1 d1)) in
  let d3 := db (snd (upload0 quiet sub_1 d2)) in
  let d4 := db (snd (upload0 quiet sub_ghost d3)) in
  map (fun r => (status r, sent r))
    [fst (upload0 quiet proj_definition empty_db);
     fst (upload0 quiet sub_1 d1);
     fst (upload0 quiet sub_1 d2);
     fst (upload0 quiet sub_ghost d3)]
    = [(200%Z, "Definition Saved"); (200%Z, "OK"); (200%Z, "Already Saved");
       (412%Z, "Precondition Failed: Project definition not found")] /\
  d1 = db_proj /\
  map sub_id (submissions d4) = [Some "Sub-1"] /\
  map def_project_name (definitions d4) = [Some "Proj"].
Proof. repeat split. Qed.

Lemma definition_stored_whatever_the_store_witness :
  upload0 quiet proj_definition db_proj
    = (send 200 "Definition Saved",
       mk_state db_proj [] 
         [UpsertDefinition (Some "Proj")
            (SqlText (compact proj_definition))]).
Proof.
  exact (definition_stored_whatever_the_store compact real_text quiet
           proj_definition "Proj-1" _ [] _ (SqlText "Proj")
           eq_refl eq_refl eq_refl eq_refl eq_refl eq_refl db_proj).
Defined.

(** C1, as stated, fails: a content with [questions] and no project name
    is answered 400, not stored. *)
Lemma definition_fields_without_project :
  own_entries no_project_definition = Ok [("X", questions_only)] /\
  carries_definition questions_only = true /\
  upload0 quiet no_project_definition empty_db
    = (send 400 "Invalid JSON: 'project' field missing.",
       mk_state empty_db [] []).
Proof. repeat split. Qed.

Lemma submission_recorded_once_witness :
  fst (upload0 quiet sub_1 db_proj) = send 200 "OK" /\
  fst (upload0 quiet sub_1 (db (snd (upload0 quiet sub_1 db_proj))))
    = send 200 "Already Saved".
Proof.
  destruct (submission_recorded_once compact real_text quiet sub_1 db_proj
              "Sub-1" _ [] _ (SqlText "Proj")
              eq_refl eq_refl eq_refl eq_refl eq_refl eq_refl eq_refl eq_refl)
    as [A [_ [_ R]]].
  split; [exact A|].
  destruct (R []) as [S [_ G]].
  exact (proj1 (G quiet sub_1 _ [] _ (SqlText "Proj")
                  eq_refl eq_refl eq_refl eq_refl eq_refl eq_refl S)).
Defined.

Lemma unknown_project_rejected_witness :
  fst (upload0 quiet sub_ghost db_proj)
    = send 412 "Precondition Failed: Project definition not found" /\
  db (snd (upload0 quiet sub_ghost db_proj)) = db_proj /\
  submissions (db (snd (upload0 quiet sub_ghost db_proj)))
    = submissions db_proj /\
  mutations (trace (snd (upload0 quiet sub_ghost db_proj))) = 0%nat.
Proof.
  exact (unknown_project_rejected compact real_text quiet sub_ghost db_proj
           "Sub-2" _ [] _ (SqlText "Ghost")
           eq_refl eq_refl eq_refl eq_refl eq_refl eq_refl eq_refl).
Defined.

Lemma definition_upload_idempotent_witness :
  definitions_of (Some "Proj")
    (definitions
       (db (snd (upload0 quiet proj_definition
                   (db (snd (upload0 quiet proj_definition empty_db)))))))
    = [mk_definition (Some "Proj") (SqlText (compact proj_definition))].
Proof.
  exact (proj1 (proj2
    (definition_upload_idempotent compact real_text quiet quiet
       proj_definition empty_db "Proj-1" _ [] _ (SqlText "Proj") "Proj"
       eq_refl eq_refl eq_refl eq_refl eq_refl eq_refl eq_refl eq_refl))).
Defined.

(** C5, as stated, fails: a document with two top-level keys is stored as a
    definition under its first key. *)
Lemma second_top_level_key_accepted :
  object_keys two_keys = Ok ["Proj-1"; "extra"] /\
  fst (upload0 quiet two_keys empty_db) = send 200 "Definition Saved" /\
  definitions (db (snd (upload0 quiet two_keys empty_db)))
    = [mk_definition (Some "Proj") (SqlText (compact two_keys))].
Proof. repeat split. Qed.

Lemma malformed_iff_no_key_witness :
  snd (upload0 quiet (JObj []) empty_db) = mk_state empty_db [] [].
Proof.
  exact (proj2 (malformed_iff_no_key compact real_text quiet (JObj [])
                  empty_db) eq_refl).
Defined.

(** C6, as stated, fails: a [null] content has neither field, and the
    answer is 500. *)
Lemma null_content_not_missing_project :
  own_entries null_content = Ok [("X", JNull)] /\
  field JNull "project" = None /\
  subfield (field JNull "quiz") "project" = None /\
  upload0 quiet null_content empty_db
    = (send 500 "Internal Server Error", mk_state empty_db [] []).
Proof. repeat split. Qed.

Lemma missing_project_rejected_witness :
  upload0 quiet no_project empty_db
    = (send 400 "Invalid JSON: 'project' field missing.",
       mk_state empty_db [] []).
Proof.
  refine (proj1 (missing_project_rejected compact real_text quiet no_project
                   empty_db "X" _ [] eq_refl _ eq_refl) eq_refl).
  discriminate.
Defined.


Lemma null_content_internal_error_witness :
  upload0 quiet null_content db_proj
    = (send 500 "Internal Server Error", mk_state db_proj [] []).
Proof.
  exact (proj1 (null_content_internal_error compact real_text quiet
                  null_content db_proj "X" [] eq_refl)).
Defined.


(** C3, as stated, fails: a submission whose project name is [true] names
    no stored definition, and is answered 500, not 412. *)
Lemma boolean_project_not_412 :
  own_entries boolean_project
    = Ok [("B", JObj [("project", JBool true); ("answers", JArr [JNum 1])])]
  /\ carries_definition
       (JObj [("project", JBool true); ("answers", JArr [JNum 1])]) = false
  /\ project_name
       (Some (JObj [("project", JBool true); ("answers", JArr [JNum 1])]))
     = Ok (Some (JBool true))
  /\ definitions empty_db = []
  /\ upload0 quiet boolean_project empty_db
     = (send 500 "Internal Server Error", mk_state empty_db [] []).
Proof. repeat split. Qed.

(** C4, as stated, fails: uploaded twice, a definition whose project name
    is [[null]] leaves two rows, both under NULL, and none that a
    [WHERE project_name = ?] selects. *)
Lemma null_project_stored_twice :
  fst (upload0 quiet null_project empty_db) = send 200 "Definition Saved" /\
  fst (upload0 quiet null_project
         (db (snd (upload0 quiet null_project empty_db))))
    = send 200 "Definition Saved" /\
  definitions
    (db (snd (upload0 quiet null_project
                (db (snd (upload0 quiet null_project empty_db))))))
    = [mk_definition None (SqlText (compact null_project));
       mk_definition None (SqlText (compact null_project))].
Proof. repeat split. Qed.


(** ** Further properties of the handler *)

(** *** Binding next to strings *)

Lemma bind_args_definition_inv (p : jsval) (s : string) (k v : sqlval) :
  bind_args 2 [p; Some (JStr s)] = Ok [k; v] ->
  bind_args 1 [p] = Ok [k] /\ v = SqlText s.
Proof.
  unfold bind_args.
  destruct p as [[ | b | n | t | items | props]|];
    try (cbn; intros H; try discriminate H; inversion H; now split).
  destruct items as [|x [|y [|z r]]];
    cbn [bind_each bind_array]; unfold bind_next.
  - cbn. discriminate.
  - destruct (bind_value (Some x)) as [vx|]; cbn; [|discriminate].
    intros H; inversion H. now split.
  - destruct (bind_value (Some x)) as [vx|], (bind_value (Some y)) as [vy|];
      cbn; discriminate.
  - destruct (bind_value (Some x)) as [vx|], (bind_value (Some y)) as [vy|],
      (bind_value (Some z)) as [vz|]; cbn; discriminate.
Qed.

Lemma bind_args_submission_inv (p : jsval) (u s : string) (i k v : sqlval) :
  bind_args 3 [Some (JStr u); p; Some (JStr s)] = Ok [i; k; v] ->
  i = SqlText u /\ bind_args 1 [p] = Ok [k] /\ v = SqlText s.
Proof.
  unfold bind_args.
  destruct p as [[ | b | n | t | items | props]|];
    try (cbn; intros H; try discriminate H; inversion H; now repeat split).
  destruct items as [|x [|y [|z r]]];
    cbn [bind_each bind_array]; unfold bind_next.
  - cbn. discriminate.
  - destruct (bind_value (Some x)) as [vx|]; cbn; [|discriminate].
    intros H; inversion H. now repeat split.
  - destruct (bind_value (Some x)) as [vx|], (bind_value (Some y)) as [vy|];
      cbn; discriminate.
  - destruct (bind_value (Some x)) as [vx|], (bind_value (Some y)) as [vy|],
      (bind_value (Some z)) as [vz|]; cbn; discriminate.
Qed.

Lemma keys_first_entry (body : json) (uid : string) (ks : list string) :
  object_keys body = Ok (uid :: ks) ->
  exists c rest,
    own_entries body = Ok ((uid, c) :: rest) /\ get_own body uid = Some c.
Proof.
  unfold object_keys. destruct (own_entries body) as [es|] eqn:E;
    [|discriminate].
  destruct es as [|[k c] rest]; cbn; intros H; inversion H; subst.
  exists c, rest. split; [reflexivity|].
  unfold get_own. rewrite E. cbn. now rewrite String.eqb_refl.
Qed.

Section MoreProperties.

Variable JSON_stringify : json -> string.
Variable real_to_text : Z -> string.

Abbreviation upload := (upload JSON_stringify real_to_text).
Abbreviation thrown := (thrown JSON_stringify real_to_text).
Abbreviation serve := (serve JSON_stringify real_to_text).
Abbreviation key := (text_affinity real_to_text).
Abbreviation payload_of body := (SqlText (JSON_stringify body)).

(** What a request does to the database: nothing, or it stores the
    definition its document carries, or it appends the submission its
    document carries. *)
Lemma upload_effect (e : env) (body : json) (d : database) :
  let d' := db (snd (upload e body d)) in
  d' = d \/
  (exists uid c rest p kv,
     own_entries body = Ok ((uid, c) :: rest) /\
     project_name (Some c) = Ok p /\ truthy p = true /\
     is_definition (Some c) = Ok true /\
     bind_args 1 [p] = Ok [kv] /\
     fst (upload e body d) = send 200 "Definition Saved" /\
     d' = mk_database
            (replace_definition (key kv) (payload_of body) (definitions d))
            (submissions d)) \/
  (exists uid c rest p kv,
     own_entries body = Ok ((uid, c) :: rest) /\
     project_name (Some c) = Ok p /\ truthy p = true /\
     is_definition (Some c) = Ok false /\
     bind_args 1 [p] = Ok [kv] /\
     select_definition (key kv) (definitions d) = true /\
     submissions_with_id (Some uid) (submissions d) = [] /\
     fst (upload e body d) = send 200 "OK" /\
     d' = mk_database (definitions d)
            (submissions d
               ++ [mk_submission (Some uid) (key kv) (now e)
                     (payload_of body)])).
Proof.
  by_paths; cbn [fst snd db];
    try (left; reflexivity); try (left; destruct d; reflexivity).
  all: match goal with
       | K : object_keys _ = Ok (_ :: _) |- _ =>
           destruct (keys_first_entry _ _ _ K) as [c [rest [E C]]];
           rewrite C in *
       end.
  all: repeat match goal with
       | H : negb _ = true |- _ => rewrite negb_true_iff in H
       | H : negb _ = false |- _ => rewrite negb_false_iff in H
       | H : bind_args 2 _ = Ok _ |- _ =>
           apply bind_args_definition_inv in H; destruct H as [? ->]
       | H : bind_args 3 _ = Ok _ |- _ =>
           apply bind_args_submission_inv in H; destruct H as [-> [? ->]]
       | H : insert_submission _ _ _ _ _ = Ok _ |- _ =>
           apply insert_submission_ok in H; destruct H as [-> X];
           apply filter_nil_existsb in X
       end.
  all: try match goal with
       | H1 : bind_args 1 ?a = Ok [?x], H2 : bind_args 1 ?a = Ok [?y] |- _ =>
           rewrite H1 in H2; inversion H2; subst; clear H2
       end.
  all: try (right; left; do 5 eexists; repeat split; eassumption).
  all: right; right; do 5 eexists; repeat split; eassumption.
Qed.

(** *** Requests that are not answered 200 *)

(** X1.  A request that is not answered 200, be it refused (400, 412) or
    failed (500, storage faults included), leaves the database exactly as
    it was. *)
Theorem only_success_changes_database (e : env) (body : json) (d : database) :
  status (fst (upload e body d)) <> 200%Z ->
  db (snd (upload e body d)) = d.
Proof.
  intros N.
  destruct (upload_effect e body d)
    as [U | [(uid & c & rest & p & kv & _ & _ & _ & _ & _ & R & _)
            | (uid & c & rest & p & kv & _ & _ & _ & _ & _ & _ & _ & R & _)]];
    [exact U | | ]; rewrite R in N; now elim N.
Qed.

(** *** Invariants of the tables over any sequence of requests *)

(** X2.  [submissions] is append-only: whatever is uploaded, the rows that
    were there stay, unchanged and in place, in front of the new ones. *)
Theorem submissions_append_only (reqs : list (env * json)) (d : database) :
  exists added,
    submissions (serve reqs d) = submissions d ++ added.
Proof.
  revert d. induction reqs as [|[e body] reqs IH]; intros d.
  - exists []. cbn. now rewrite app_nil_r.
  - cbn [Handler.serve].
    destruct (IH (db (snd (upload e body d)))) as [added A]. rewrite A.
    destruct (upload_submissions JSON_stringify real_to_text e body d)
      as [E | [row [E _]]]; cbv zeta in E; rewrite E.
    + now exists added.
    + exists (row :: added). now rewrite <- app_assoc.
Qed.

Lemma submissions_with_id_step (e : env) (body : json) (d : database) :
  (forall k,
     (List.length (submissions_with_id k (submissions d)) <= 1)%nat) ->
  forall k,
    (List.length
       (submissions_with_id k (submissions (db (snd (upload e body d)))))
     <= 1)%nat.
Proof.
  intros I k.
  destruct (upload_submissions JSON_stringify real_to_text e body d)
    as [E | [row [E X]]]; cbv zeta in E; rewrite E; [apply I|].
  unfold submissions_with_id in *. rewrite filter_app, length_app. cbn.
  destruct (text_eqb (sub_id row) k) eqn:T; cbn; [|specialize (I k); lia].
  apply text_eqb_eq in T. destruct T as [s [T1 T2]]. subst k.
  rewrite T1 in X. apply filter_nil_existsb in X. rewrite X. cbn. lia.
Qed.

(** X3.  The primary key of [submissions] is kept: if no [id] has two rows
    before, none has after any sequence of requests. *)
Theorem submission_ids_stay_unique (reqs : list (env * json)) (d : database) :
  (forall k,
     (List.length (submissions_with_id k (submissions d)) <= 1)%nat) ->
  forall k,
    (List.length (submissions_with_id k (submissions (serve reqs d))) <= 1)%nat.
Proof.
  revert d. induction reqs as [|[e body] reqs IH]; intros d I k;
    [apply I|].
  cbn [Handler.serve]. apply IH. now apply submissions_with_id_step.
Qed.

Lemma text_eqb_sym (a b : text) : text_eqb a b = text_eqb b a.
Proof. destruct a, b; cbn; auto using String.eqb_sym. Qed.

Lemma text_eqb_trans (a b c : text) :
  text_eqb a b = true -> text_eqb a c = text_eqb b c.
Proof.
  intros H. apply text_eqb_eq in H. destruct H as [s [-> ->]]. reflexivity.
Qed.

(** The rows of a project after [INSERT OR REPLACE]: the new row for the
    project written, the old rows for any other. *)
Lemma definitions_of_replace_any (k k' : text) (p : sqlval)
    (defs : list definition_row) :
  definitions_of k (replace_definition k' p defs)
    = if text_eqb k' k then [mk_definition k' p] else definitions_of k defs.
Proof.
  unfold definitions_of, replace_definition. rewrite filter_app. cbn.
  destruct (text_eqb k' k) eqn:T.
  - replace (filter _ (filter _ defs)) with (@nil definition_row);
      [reflexivity|].
    symmetry. apply filter_nil_existsb. apply not_true_is_false. intros X.
    apply existsb_exists in X. destruct X as [r [I X]].
    apply filter_In in I. destruct I as [_ I].
    rewrite (text_eqb_trans _ _ k' X), text_eqb_sym, T in I. discriminate.
  - rewrite app_nil_r. induction defs as [|r defs IH]; cbn; [reflexivity|].
    destruct (text_eqb (def_project_name r) k') eqn:R; cbn.
    + now rewrite (text_eqb_trans _ _ k R), T.
    + now rewrite IH.
Qed.

(** X4.  The primary key of [definitions] is kept: if no project name has
    two rows before, none has after any sequence of requests. *)
Theorem definition_keys_stay_unique (reqs : list (env * json)) (d : database) :
  (forall k,
     (List.length (definitions_of k (definitions d)) <= 1)%nat) ->
  forall k,
    (List.length (definitions_of k (definitions (serve reqs d))) <= 1)%nat.
Proof.
  revert d. induction reqs as [|[e body] reqs IH]; intros d I k;
    [apply I|].
  cbn [Handler.serve]. apply IH. clear k. intros k.
  destruct (upload_definitions JSON_stringify real_to_text e body d)
    as [E | [k' [p E]]]; cbv zeta in E; rewrite E; [apply I|].
  rewrite definitions_of_replace_any.
  destruct (text_eqb k' k); [cbn; lia | apply I].
Qed.

(** X5.  Referential integrity is kept: if every submission row names a
    project that has a definition row, so it is after any sequence of
    requests. *)
Theorem submissions_reference_definitions
    (reqs : list (env * json)) (d : database) :
  (forall r, In r (submissions d) ->
     select_definition (sub_project_name r) (definitions d) = true) ->
  forall r, In r (submissions (serve reqs d)) ->
    select_definition (sub_project_name r) (definitions (serve reqs d)) = true.
Proof.
  revert d. induction reqs as [|[e body] reqs IH]; intros d I; [exact I|].
  cbn [Handler.serve]. apply IH.
  destruct (upload_effect e body d)
    as [U | [(uid & c & rest & p & kv & _ & _ & _ & _ & _ & _ & U)
            | (uid & c & rest & p & kv & _ & _ & _ & _ & _ & S & _ & _ & U)]];
    cbv zeta in U; rewrite U; cbn [definitions submissions]; [exact I | |].
  - intros r R. apply select_replace. now apply I.
  - intros r R. apply in_app_or in R. destruct R as [R | [<- | []]];
      [now apply I | exact S].
Qed.

(** X6.  A request touches the definition rows of one project at most:
    there is a project name such that the rows of every other name are the
    ones before, and the rows of that name are the ones before or the
    single row holding the document of this request. *)
Theorem other_definitions_untouched
    (e : env) (body : json) (d : database) :
  let d' := db (snd (upload e body d)) in
  exists k0 : text,
    (forall k, text_eqb k0 k = false ->
       definitions_of k (definitions d') = definitions_of k (definitions d))
    /\
    (definitions_of k0 (definitions d') = definitions_of k0 (definitions d)
     \/ definitions_of k0 (definitions d')
        = [mk_definition k0 (payload_of body)]).
Proof.
  destruct (upload_effect e body d)
    as [U | [(uid & c & rest & p & kv & _ & _ & _ & _ & _ & _ & U)
            | (uid & c & rest & p & kv & _ & _ & _ & _ & _ & _ & _ & _ & U)]];
    cbv zeta in U |- *; rewrite U; cbn [definitions];
    try (exists None; split; [reflexivity | now left]).
  exists (key kv). split.
  - intros k T. rewrite definitions_of_replace_any. now rewrite T.
  - rewrite definitions_of_replace_any.
    destruct (text_eqb (key kv) (key kv)); [now right | now left].
Qed.

(** X7.  Definitions are never deleted: a project that has a definition
    row has one after any sequence of requests. *)
Theorem definitions_never_deleted
    (reqs : list (env * json)) (d : database) (k : text) :
  select_definition k (definitions d) = true ->
  select_definition k (definitions (serve reqs d)) = true.
Proof.
  revert d. induction reqs as [|[e body] reqs IH]; intros d S; [exact S|].
  cbn [Handler.serve]. apply IH.
  destruct (upload_effect e body d)
    as [U | [(uid & c & rest & p & kv & _ & _ & _ & _ & _ & _ & U)
            | (uid & c & rest & p & kv & _ & _ & _ & _ & _ & _ & _ & _ & U)]];
    cbv zeta in U; rewrite U; cbn [definitions];
    [exact S | now apply select_replace | exact S].
Qed.

(** *** Exceptions *)

Lemma get_prop_err (v : jsval) (name : string) (x : exn) :
  get_prop v name = Err x -> storage_fault x = false.
Proof.
  destruct v as [[]|]; cbn; intros H; inversion H; reflexivity.
Qed.

Lemma project_name_err (c : jsval) (x : exn) :
  project_name c = Err x -> storage_fault x = false.
Proof.
  unfold project_name.
  destruct (get_prop c "project") as [p|y] eqn:P.
  - destruct (truthy p); [discriminate|].
    destruct (get_prop c "quiz") as [q|z] eqn:Q.
    + destruct (truthy q); [apply get_prop_err | discriminate].
    + intros H; inversion H; subst. eapply get_prop_err; eassumption.
  - intros H; inversion H; subst. eapply get_prop_err; eassumption.
Qed.

Lemma is_definition_err (c : jsval) (x : exn) :
  is_definition c = Err x -> storage_fault x = false.
Proof.
  unfold is_definition.
  destruct (get_prop c "questions") as [q|y] eqn:Q.
  - destruct (truthy q); [discriminate|].
    destruct (get_prop c "logic") as [l|z] eqn:L; [discriminate|].
    intros H; inversion H; subst. eapply get_prop_err; eassumption.
  - intros H; inversion H; subst. eapply get_prop_err; eassumption.
Qed.

Lemma object_keys_err (body : json) (x : exn) :
  object_keys body = Err x -> storage_fault x = false.
Proof.
  unfold object_keys. destruct body; cbn; intros H; inversion H; reflexivity.
Qed.

Lemma no_code_no_storage_fault (x : exn) :
  exn_code x = None -> storage_fault x = false.
Proof. destruct x; cbn; [reflexivity | reflexivity | discriminate]. Qed.

(** X8.  While the storage layer raises no fault, the handler never ends
    with an SQLite error: a duplicate [id] is caught, and the foreign key
    cannot fail since the project is looked up first.  An exception then
    comes from the document alone. *)
Theorem healthy_store_no_sqlite_error
    (e : env) (body : json) (d : database) (x : exn) :
  env_faults e = [] ->
  thrown e body d = Some x ->
  storage_fault x = false.
Proof.
  intros F. by_paths; intros T; inversion T; subst; clear T.
  all: try congruence.
  all: try reflexivity.
  all: try (eapply object_keys_err; eassumption).
  all: try (eapply project_name_err; eassumption).
  all: try (eapply is_definition_err; eassumption).
  all: try (apply no_code_no_storage_fault; eapply bind_args_err; eassumption).
  all: repeat match goal with
       | H : negb _ = false |- _ => rewrite negb_false_iff in H
       | H : bind_args 3 _ = Ok _ |- _ =>
           apply bind_args_submission_inv in H; destruct H as [-> [? ->]]
       | H1 : bind_args 1 ?a = Ok [?x], H2 : bind_args 1 ?a = Ok [?y] |- _ =>
           rewrite H1 in H2; inversion H2; subst; clear H2
       end.
  all: match goal with
       | H : insert_submission _ _ _ _ _ = Err _ |- _ =>
           unfold insert_submission in H;
           destruct (existsb _ (submissions d));
           [inversion H; subst; cbn [exn_code] in *;
            repeat match goal with
                   | C : Some _ = Some _ |- _ => inversion C; subst; clear C
                   end;
            try rewrite String.eqb_refl in *; congruence|];
           destruct (text_affinity real_to_text _); [|discriminate H];
           match goal with
           | S : select_definition _ _ = true |- _ => rewrite S in H
           end; discriminate H
       end.
Qed.

(** *** Well-formed documents *)

(** X9.  While the storage layer raises no fault, a document whose content
    is not [null] and whose project name, when there is one, can be bound
    by the driver (a string, for one) is never answered 500: the status is
    200, 400 or 412. *)
Theorem bindable_project_never_500
    (e : env) (body : json) (d : database) (uid : string) (c : json)
    (rest : list (string * json)) :
  env_faults e = [] ->
  own_entries body = Ok ((uid, c) :: rest) ->
  c <> JNull ->
  (forall p, project_name (Some c) = Ok p -> truthy p = true ->
     exists kv, bind_args 1 [p] = Ok [kv]) ->
  In (status (fst (upload e body d))) [200%Z; 400%Z; 412%Z].
Proof.
  intros F H N B.
  pose proof (project_name_field c N) as P.
  pose proof (is_definition_field c N) as D.
  set (p := if truthy (field c "project") then field c "project"
            else if truthy (field c "quiz")
                 then subfield (field c "quiz") "project"
                 else field c "quiz") in P.
  destruct (truthy p) eqn:T.
  - destruct (B p P T) as [kv K].
    destruct (carries_definition c) eqn:CD.
    + rewrite (upload_definition JSON_stringify real_to_text
                 e body d uid c rest p kv F H P T D K).
      cbn. auto.
    + destruct (select_definition (key kv) (definitions d)) eqn:S.
      * destruct (submissions_with_id (Some uid) (submissions d)) eqn:R.
        -- rewrite (upload_new_submission JSON_stringify real_to_text
                      e body d uid c rest p kv F H P T D K S R).
           cbn. auto.
        -- rewrite (upload_duplicate_submission JSON_stringify real_to_text
                      e body d uid c rest p kv F H P T D K S);
             [cbn; auto | rewrite R; discriminate].
      * rewrite (upload_unknown_project JSON_stringify real_to_text
                   e body d uid c rest p kv F H P T D K S).
        cbn. auto.
  - rewrite (upload_missing_project JSON_stringify real_to_text
               e body d uid c rest p H P T).
    cbn. auto.
Qed.

(** *** Composing requests *)

Lemma select_after_replace (s : string) (p : sqlval)
    (defs : list definition_row) :
  select_definition (Some s) (replace_definition (Some s) p defs) = true.
Proof.
  unfold select_definition, replace_definition. rewrite existsb_app. cbn.
  rewrite String.eqb_refl. apply orb_true_r.
Qed.

(** X10.  The retry the 412 asks for works, while no storage fault occurs:
    a submission under an id no row has yet, whose project name binds to a
    text, refused because that project has no definition, is stored
    (200 "OK", one row) when it is sent again after a definition document
    for that project. *)
Theorem retry_after_definition
    (e1 e2 e3 : env) (sub def : json) (d : database)
    (uid : string) (c : json) (rest : list (string * json)) (p : jsval)
    (kv : sqlval)
    (uid' : string) (c' : json) (rest' : list (string * json)) (p' : jsval)
    (kv' : sqlval) (project : string) :
  env_faults e1 = [] -> env_faults e2 = [] -> env_faults e3 = [] ->
  own_entries sub = Ok ((uid, c) :: rest) ->
  project_name (Some c) = Ok p -> truthy p = true ->
  carries_definition c = false ->
  bind_args 1 [p] = Ok [kv] -> key kv = Some project ->
  own_entries def = Ok ((uid', c') :: rest') ->
  project_name (Some c') = Ok p' -> truthy p' = true ->
  carries_definition c' = true ->
  bind_args 1 [p'] = Ok [kv'] -> key kv' = Some project ->
  select_definition (Some project) (definitions d) = false ->
  submissions_with_id (Some uid) (submissions d) = [] ->
  let d1 := db (snd (upload e1 sub d)) in
  let d2 := db (snd (upload e2 def d1)) in
  let d3 := db (snd (upload e3 sub d2)) in
  status (fst (upload e1 sub d)) = 412%Z /\
  d1 = d /\
  fst (upload e3 sub d2) = send 200 "OK" /\
  submissions_with_id (Some uid) (submissions d3)
    = [mk_submission (Some uid) (Some project) (now e3) (payload_of sub)].
Proof.
  intros F1 F2 F3 H P T CD B K H' P' T' CD' B' K' S R d1 d2 d3.
  assert (I : is_definition (Some c) = Ok false).
  { rewrite is_definition_field by (eapply project_name_not_null; eauto).
    now rewrite CD. }
  assert (I' : is_definition (Some c') = Ok true).
  { rewrite is_definition_field by (eapply project_name_not_null; eauto).
    now rewrite CD'. }
  rewrite <- K in S.
  assert (U1 := upload_unknown_project JSON_stringify real_to_text
                  e1 sub d uid c rest p kv F1 H P T I B S).
  assert (D1 : d1 = d) by (subst d1; now rewrite U1).
  assert (U2 := upload_definition JSON_stringify real_to_text
                  e2 def d1 uid' c' rest' p' kv' F2 H' P' T' I' B').
  assert (D2 : d2 = mk_database
                     (replace_definition (Some project) (payload_of def)
                        (definitions d))
                     (submissions d))
    by (subst d2; rewrite U2, D1, K'; reflexivity).
  assert (S2 : select_definition (key kv) (definitions d2) = true)
    by (rewrite D2, K; apply select_after_replace).
  assert (R2 : submissions_with_id (Some uid) (submissions d2) = [])
    by (rewrite D2; exact R).
  assert (U3 := upload_new_submission JSON_stringify real_to_text
                  e3 sub d2 uid c rest p kv F3 H P T I B S2 R2).
  subst d3. rewrite U1, U3. cbn [fst snd db submissions status].
  repeat split; auto.
  unfold submissions_with_id in *. rewrite filter_app, R2, K. cbn.
  now rewrite String.eqb_refl.
Qed.

(** X11.  Delivering a document twice in a row does to the database what
    delivering it once does (no storage fault, no definition under the
    NULL key): the second request changes nothing. *)
Theorem redelivery_changes_nothing
    (e1 e2 : env) (body : json) (d : database) :
  env_faults e1 = [] -> env_faults e2 = [] ->
  let d1 := db (snd (upload e1 body d)) in
  (forall r, In r (definitions d1) -> def_project_name r <> None) ->
  db (snd (upload e2 body d1)) = d1.
Proof.
  intros F1 F2 d1 NN.
  destruct (upload_effect e2 body d1)
    as [U | [(uid & c & rest & p & kv & H & P & T & I & B & _ & U)
            | (uid & c & rest & p & kv & H & P & T & I & B & S & R & _ & U)]];
    cbv zeta in U; [exact U | |].
  - rewrite U.
    assert (U1 := upload_definition JSON_stringify real_to_text
                    e1 body d uid c rest p kv F1 H P T I B).
    assert (D1 : d1 = mk_database
                       (replace_definition (key kv) (payload_of body)
                          (definitions d))
                       (submissions d))
      by (subst d1; now rewrite U1).
    destruct (key kv) as [s|] eqn:K.
    + rewrite D1. cbn [definitions submissions].
      now rewrite replace_definition_twice.
    + exfalso. apply (NN (mk_definition None (payload_of body)));
        [|reflexivity].
      rewrite D1. cbn [definitions]. unfold replace_definition.
      apply in_or_app. right. now left.
  - exfalso.
    destruct (select_definition (key kv) (definitions d)) eqn:S0.
    + destruct (submissions_with_id (Some uid) (submissions d)) eqn:R0.
      * assert (U1 := upload_new_submission JSON_stringify real_to_text
                        e1 body d uid c rest p kv F1 H P T I B S0 R0).
        subst d1. rewrite U1 in R. cbn [snd db submissions] in R.
        unfold submissions_with_id in R. rewrite filter_app in R.
        apply app_eq_nil in R. destruct R as [_ R]. cbn in R.
        rewrite String.eqb_refl in R. discriminate R.
      * assert (U1 := upload_duplicate_submission JSON_stringify
                        real_to_text e1 body d uid c rest p kv
                        F1 H P T I B S0).
        subst d1. rewrite U1 in R by (rewrite R0; discriminate).
        cbn [snd db] in R. congruence.
    + assert (U1 := upload_unknown_project JSON_stringify real_to_text
                      e1 body d uid c rest p kv F1 H P T I B S0).
      subst d1. rewrite U1 in S. cbn [snd db] in S. congruence.
Qed.

(** X14.  A document is written to one table only, the one its content
    selects: with a truthy [questions] or [logic] the submissions are left
    as they are, without one the definitions are. *)
Theorem classification_selects_table
    (e : env) (body : json) (d : database) (uid : string) (c : json)
    (rest : list (string * json)) :
  own_entries body = Ok ((uid, c) :: rest) ->
  (carries_definition c = true ->
     submissions (db (snd (upload e body d))) = submissions d) /\
  (carries_definition c = false ->
     definitions (db (snd (upload e body d))) = definitions d).
Proof.
  intros H.
  destruct (upload_effect e body d)
    as [U | [(uid' & c' & rest' & p & kv & H' & P & _ & I & _ & _ & U)
            | (uid' & c' & rest' & p & kv & H' & P & _ & I & _ & _ & _ & _
               & U)]];
    cbv zeta in U; rewrite U; cbn [definitions submissions];
    split; intros CD; try reflexivity.
  all: rewrite H in H'; inversion H'; subst.
  all: rewrite is_definition_field in I
    by (eapply project_name_not_null; eauto).
  all: congruence.
Qed.

(** *** The envelope *)

(** Binding in front of, or between, strings, as a test on the project
    name alone. *)
Lemma bind_array_many (n b : nat) (items : list json) (vs : list sqlval) :
  bind_array n b items = Ok vs -> vs = [] \/ (b + List.length vs <= n)%nat.
Proof.
  revert b vs. induction items as [|x items IH]; intros b vs;
    cbn [bind_array].
  - intros H; inversion H. now left.
  - unfold bind_next. destruct (bind_value (Some x)) as [v|]; [|discriminate].
    destruct (b <? n)%nat eqn:L; [|discriminate].
    destruct (bind_array n (S b) items) as [ws|] eqn:A; [|discriminate].
    intros H; inversion H; subst. right. apply Nat.ltb_lt in L.
    destruct (IH _ _ A) as [-> | B]; cbn in *; lia.
Qed.

Lemma bind_args_select_nf (p : jsval) :
  bind_args 1 [p]
    = match bind_each 1 0 [p] false with
      | Ok [] => Err (RangeError "Too few parameter values were provided")
      | Ok [k] => Ok [k]
      | Ok (_ :: _ :: _) =>
          Err (RangeError "Too many parameter values were provided")
      | Err x => Err x
      end.
Proof.
  unfold bind_args. destruct (bind_each 1 0 [p] false) as [[|a [|b vs]]|];
    reflexivity.
Qed.

Lemma bind_args_definition_nf (p : jsval) (s : string) :
  bind_args 2 [p; Some (JStr s)]
    = match bind_each 2 0 [p] false with
      | Ok [] => Err (RangeError "Too few parameter values were provided")
      | Ok [k] => Ok [k; SqlText s]
      | Ok (_ :: _ :: _) =>
          Err (RangeError "Too many parameter values were provided")
      | Err x => Err x
      end.
Proof.
  unfold bind_args.
  destruct p as [[ | b | n | t | items | props]|]; try reflexivity.
  cbn [bind_each].
  destruct (bind_array 2 0 items) as [vs|] eqn:A; [|reflexivity].
  destruct (bind_array_many _ _ _ _ A) as [-> | B]; [reflexivity|].
  destruct vs as [|a [|b [|c vs]]]; cbn in B |- *; try reflexivity; lia.
Qed.

Lemma bind_args_submission_nf (p : jsval) (u s : string) :
  bind_args 3 [Some (JStr u); p; Some (JStr s)]
    = match bind_each 3 1 [p] false with
      | Ok [] => Err (RangeError "Too few parameter values were provided")
      | Ok [k] => Ok [SqlText u; k; SqlText s]
      | Ok (_ :: _ :: _) =>
          Err (RangeError "Too many parameter values were provided")
      | Err x => Err x
      end.
Proof.
  unfold bind_args.
  destruct p as [[ | b | n | t | items | props]|]; try reflexivity.
  cbn [bind_each bind_next bind_value Nat.ltb Nat.leb].
  destruct (bind_array 3 1 items) as [vs|] eqn:A; [|reflexivity].
  destruct (bind_array_many _ _ _ _ A) as [-> | B]; [reflexivity|].
  destruct vs as [|a [|b [|c vs]]]; cbn in B |- *; try reflexivity; lia.
Qed.

(** X12.  Only the first top-level entry decides the answer: two documents
    with the same first key and the same value under it are answered
    alike, whatever else they hold. *)
Theorem first_entry_decides_answer
    (e : env) (b1 b2 : json) (d : database) (uid : string) (c : json)
    (r1 r2 : list (string * json)) :
  own_entries b1 = Ok ((uid, c) :: r1) ->
  own_entries b2 = Ok ((uid, c) :: r2) ->
  fst (upload e b1 d) = fst (upload e b2 d).
Proof.
  intros H1 H2.
  destruct (first_entry _ _ _ _ H1) as [K1 C1].
  destruct (first_entry _ _ _ _ H2) as [K2 C2].
  unfold_handler. rewrite K1, C1, K2, C2.
  unfold insert_submission.
  cbn [now env_faults db faults trace definitions submissions].
  repeat (rewrite ?bind_args_select_nf, ?bind_args_definition_nf,
            ?bind_args_submission_nf;
          split_match;
          cbn [fst snd db faults trace app negb exn_code
               definitions submissions] in *;
          try discriminate; try reflexivity).
Qed.

(** X13.  An array body is read like an object whose keys are the indices:
    its first element is the content and the unique ID is always "0", so a
    second array submission meets the row of the first and is answered
    "Already Saved" without being stored. *)
Theorem array_submissions_share_id
    (e1 e2 : env) (c1 c2 : json) (r1 r2 : list json) (d : database)
    (p1 p2 : jsval) (kv1 kv2 : sqlval) :
  env_faults e1 = [] -> env_faults e2 = [] ->
  project_name (Some c1) = Ok p1 -> truthy p1 = true ->
  carries_definition c1 = false -> bind_args 1 [p1] = Ok [kv1] ->
  select_definition (key kv1) (definitions d) = true ->
  project_name (Some c2) = Ok p2 -> truthy p2 = true ->
  carries_definition c2 = false -> bind_args 1 [p2] = Ok [kv2] ->
  select_definition (key kv2) (definitions d) = true ->
  submissions_with_id (Some "0") (submissions d) = [] ->
  let d1 := db (snd (upload e1 (JArr (c1 :: r1)) d)) in
  fst (upload e1 (JArr (c1 :: r1)) d) = send 200 "OK" /\
  submissions d1
    = submissions d
        ++ [mk_submission (Some "0") (key kv1) (now e1)
              (payload_of (JArr (c1 :: r1)))] /\
  fst (upload e2 (JArr (c2 :: r2)) d1) = send 200 "Already Saved" /\
  db (snd (upload e2 (JArr (c2 :: r2)) d1)) = d1.
Proof.
  intros F1 F2 P1 T1 CD1 B1 S1 P2 T2 CD2 B2 S2 R d1.
  assert (I1 : is_definition (Some c1) = Ok false).
  { rewrite is_definition_field by (eapply project_name_not_null; eauto).
    now rewrite CD1. }
  assert (I2 : is_definition (Some c2) = Ok false).
  { rewrite is_definition_field by (eapply project_name_not_null; eauto).
    now rewrite CD2. }
  assert (U1 := upload_new_submission JSON_stringify real_to_text
                  e1 (JArr (c1 :: r1)) d "0" c1 (indexed 1 r1) p1 kv1
                  F1 eq_refl P1 T1 I1 B1 S1 R).
  subst d1. rewrite U1. cbn [fst snd db submissions].
  split; [reflexivity|]. split; [reflexivity|].
  rewrite (upload_duplicate_submission JSON_stringify real_to_text
             e2 (JArr (c2 :: r2))
             (mk_database (definitions d)
                (submissions d
                   ++ [mk_submission (Some "0") (key kv1) (now e1)
                         (payload_of (JArr (c1 :: r1)))]))
             "0" c2 (indexed 1 r2) p2 kv2
             F2 eq_refl P2 T2 I2 B2 S2).
  - now cbn.
  - cbn [submissions]. unfold submissions_with_id.
    rewrite filter_app. cbn. intros E. apply app_eq_nil in E.
    destruct E as [_ E]. discriminate E.
Qed.

(** *** Storage faults *)

(** X15.  When the storage layer fails the first statement of a request,
    the request is never answered as a success and stores nothing: the
    status is 500, or 400 for a document refused before any statement. *)
Theorem failing_store_never_success
    (e : env) (body : json) (d : database) (code : string)
    (fs : list (option string)) :
  env_faults e = Some code :: fs ->
  In (status (fst (upload e body d))) [400%Z; 500%Z] /\
  db (snd (upload e body d)) = d.
Proof.
  intros F. by_paths; try congruence; cbn [fst snd db status].
  all: split; [cbn; auto | try reflexivity; destruct d; reflexivity].
Qed.

(** X16.  The inner [catch] swallows the duplicate-key error only: when
    the [INSERT] of a submission fails with any other SQLite code, the
    error is thrown again, the answer is 500 and nothing is stored. *)
Theorem insert_fault_is_rethrown
    (e : env) (body : json) (d : database) (uid : string) (c : json)
    (rest : list (string * json)) (p : jsval) (kv : sqlval)
    (code : string) (fs : list (option string)) :
  env_faults e = None :: Some code :: fs ->
  String.eqb code SQLITE_CONSTRAINT_PRIMARYKEY = false ->
  own_entries body = Ok ((uid, c) :: rest) ->
  project_name (Some c) = Ok p -> truthy p = true ->
  carries_definition c = false ->
  bind_args 1 [p] = Ok [kv] ->
  select_definition (key kv) (definitions d) = true ->
  fst (upload e body d) = send 500 "Internal Server Error" /\
  thrown e body d = Some (SqliteError code) /\
  db (snd (upload e body d)) = d.
Proof.
  intros F N H P T CD B S. destruct (first_entry _ _ _ _ H) as [K C].
  destruct (bind_args_project p kv uid (JSON_stringify body) B) as [_ B3].
  assert (I : is_definition (Some c) = Ok false).
  { rewrite is_definition_field by (eapply project_name_not_null; eauto).
    now rewrite CD. }
  unfold_handler. rewrite K, C, P, T, I, B, F. cbn. rewrite S, B3. cbn.
  rewrite N. cbn. now destruct d.
Qed.

(** X17.  Of the content, the handler reads the four fields [project],
    [quiz], [questions] and [logic] and nothing else: two documents with
    the same first key whose contents agree on these fields are answered
    alike. *)
Theorem four_fields_decide_answer
    (e : env) (b1 b2 : json) (d : database) (uid : string) (c1 c2 : json)
    (r1 r2 : list (string * json)) :
  own_entries b1 = Ok ((uid, c1) :: r1) ->
  own_entries b2 = Ok ((uid, c2) :: r2) ->
  c1 <> JNull -> c2 <> JNull ->
  field c1 "project" = field c2 "project" ->
  field c1 "quiz" = field c2 "quiz" ->
  field c1 "questions" = field c2 "questions" ->
  field c1 "logic" = field c2 "logic" ->
  fst (upload e b1 d) = fst (upload e b2 d).
Proof.
  intros H1 H2 N1 N2 EP EQ EN EL.
  destruct (first_entry _ _ _ _ H1) as [K1 C1].
  destruct (first_entry _ _ _ _ H2) as [K2 C2].
  unfold_handler. rewrite K1, C1, K2, C2. cbv zeta.
  rewrite (project_name_field c1 N1), (project_name_field c2 N2).
  rewrite (is_definition_field c1 N1), (is_definition_field c2 N2).
  unfold carries_definition. rewrite EP, EQ, EN, EL.
  unfold insert_submission.
  cbn [now env_faults db faults trace definitions submissions].
  repeat (rewrite ?bind_args_select_nf, ?bind_args_definition_nf,
            ?bind_args_submission_nf;
          split_match;
          cbn [fst snd db faults trace app negb exn_code
               definitions submissions] in *;
          try discriminate; try reflexivity).
Qed.

End MoreProperties.

(** ** Start-up *)

(** X18.  While the storage layer raises no fault, start-up succeeds
    exactly when the directory of the database exists or can be created
    and the file, if there is one, is a database; the caught [mkdirSync]
    error does not stop it, the driver's refusal to open the file in a
    missing directory does. *)
Theorem startup_succeeds_iff (b : boot) (k : disk) :
  healthy b ->
  ((exists k', startup b k = Ok k')
     <-> (dir_exists k = true \/ mkdir b = true)
         /\ file k <> Some NotADatabase) /\
  (dir_exists k = false -> mkdir b = false ->
     startup b k
       = Err (TypeError
           "Cannot open database because the directory does not exist")).
Proof.
  intros [O [D S]]. unfold startup, ensure_directory, open_database, exec.
  rewrite D, S.
  destruct k as [dir [[|f]|]], (mkdir b) eqn:M, dir;
    cbn [dir_exists file]; rewrite ?O; cbn.
  all: split;
    [split;
     [intros [k' H]; try discriminate H; split; auto; discriminate
     |intros [[H | H] N]; try discriminate H; try (now elim N); eauto]
    |intros H1 H2; try discriminate H1; try discriminate H2; reflexivity].
Qed.

(** X19.  A successful start-up leaves both tables in place, each with
    exactly the rows it had, and with none when the table or the file was
    not there; and starting again, with no fault, changes nothing. *)
Theorem startup_keeps_rows (b : boot) (k k' : disk) :
  startup b k = Ok k' ->
  tables k'
    = Some (mk_database (rows_of_definitions k) (rows_of_submissions k)) /\
  forall b', healthy b' -> startup b' k' = Ok k'.
Proof.
  unfold startup, ensure_directory, open_database, exec,
    rows_of_definitions, rows_of_submissions.
  destruct b as [m [o|] [f|] [g|]], k as [dir [[|[[defs|] [subs|]]]|]],
    dir, m; cbn; intros H; inversion H; subst; clear H.
  all: split; [reflexivity|].
  all: intros [m' o' f' g'] [O [D S]]; cbn in O, D, S; subst; reflexivity.
Qed.

(** ** The further properties at the documents of the scenario *)

Lemma only_success_changes_database_witness :
  db (snd (upload0 disk_full proj_definition empty_db)) = empty_db.
Proof.
  apply (only_success_changes_database compact real_text disk_full
           proj_definition empty_db).
  discriminate.
Defined.

Lemma submission_ids_stay_unique_witness :
  (List.length
     (submissions_with_id (Some "Sub-1")
        (submissions (serve0 [(quiet, sub_1); (quiet, sub_1_note)] db_proj)))
   <= 1)%nat.
Proof.
  apply (submission_ids_stay_unique compact real_text
           [(quiet, sub_1); (quiet, sub_1_note)] db_proj).
  intros k. cbn. lia.
Defined.

Lemma definition_keys_stay_unique_witness :
  (List.length
     (definitions_of (Some "Proj")
        (definitions
           (serve0 [(quiet, proj_definition); (quiet, two_keys)] db_proj)))
   <= 1)%nat.
Proof.
  apply (definition_keys_stay_unique compact real_text
           [(quiet, proj_definition); (quiet, two_keys)] db_proj).
  intros k. unfold db_proj, definitions_of.
  cbn [definitions filter def_project_name].
  destruct (text_eqb _ k); cbn [List.length]; lia.
Defined.

Lemma submissions_reference_definitions_witness :
  select_definition (Some "Proj")
    (definitions (serve0 [(quiet, sub_1); (quiet, ghost_definition)] db_proj))
    = true.
Proof.
  apply (submissions_reference_definitions compact real_text
           [(quiet, sub_1); (quiet, ghost_definition)] db_proj
           (fun r (H : In r (submissions db_proj)) =>
              match H with end)
           sub_1_row).
  left. reflexivity.
Defined.

Lemma definitions_never_deleted_witness :
  select_definition (Some "Proj")
    (definitions (serve0 [(quiet, ghost_definition); (quiet, sub_ghost)]
                    db_proj))
    = true.
Proof.
  apply (definitions_never_deleted compact real_text
           [(quiet, ghost_definition); (quiet, sub_ghost)] db_proj
           (Some "Proj")).
  reflexivity.
Defined.

Lemma healthy_store_no_sqlite_error_witness :
  storage_fault (TypeError "Cannot read properties of null (reading 'project')")
    = false.
Proof.
  apply (healthy_store_no_sqlite_error compact real_text quiet null_content
           db_proj); reflexivity.
Defined.

Lemma bindable_project_never_500_witness :
  In (status (fst (upload0 quiet sub_ghost db_proj))) [200%Z; 400%Z; 412%Z].
Proof.
  apply (bindable_project_never_500 compact real_text quiet sub_ghost db_proj
           "Sub-2" (JObj [("project", JStr "Ghost");
                          ("answers", JArr [JNum 1])]) []).
  - reflexivity.
  - reflexivity.
  - discriminate.
  - intros p P T. exists (SqlText "Ghost").
    cbn in P. inversion P. reflexivity.
Defined.

Lemma retry_after_definition_witness :
  status (fst (upload0 quiet sub_ghost db_proj)) = 412%Z /\
  fst (upload0 quiet sub_ghost
         (db (snd (upload0 quiet ghost_definition db_proj))))
    = send 200 "OK".
Proof.
  destruct (retry_after_definition compact real_text quiet quiet quiet
              sub_ghost ghost_definition db_proj
              "Sub-2" _ [] _ (SqlText "Ghost")
              "Ghost-1" _ [] _ (SqlText "Ghost") "Ghost"
              eq_refl eq_refl eq_refl eq_refl eq_refl eq_refl eq_refl eq_refl
              eq_refl eq_refl eq_refl eq_refl eq_refl eq_refl eq_refl eq_refl
              eq_refl)
    as [A [_ [B _]]].
  split; [exact A | exact B].
Defined.

Lemma redelivery_changes_nothing_witness :
  db (snd (upload0 quiet proj_definition
             (db (snd (upload0 quiet proj_definition db_sub)))))
    = db (snd (upload0 quiet proj_definition db_sub)).
Proof.
  apply (redelivery_changes_nothing compact real_text quiet quiet
           proj_definition db_sub eq_refl eq_refl).
  intros r [<- | []]. discriminate.
Defined.

Lemma first_entry_decides_answer_witness :
  fst (upload0 quiet sub_1 db_proj)
    = fst (upload0 quiet sub_1_second_key db_proj).
Proof.
  exact (first_entry_decides_answer compact real_text quiet sub_1
           sub_1_second_key db_proj "Sub-1" _ [] [("Sub-9", JNull)]
           eq_refl eq_refl).
Defined.

Lemma array_submissions_share_id_witness :
  fst (upload0 quiet (JArr [answers_1]) db_proj) = send 200 "OK" /\
  fst (upload0 quiet (JArr [answers_2; JNum 7])
         (db (snd (upload0 quiet (JArr [answers_1]) db_proj))))
    = send 200 "Already Saved".
Proof.
  destruct (array_submissions_share_id compact real_text quiet quiet
              answers_1 answers_2 [] [JNum 7] db_proj
              _ _ (SqlText "Proj") (SqlText "Proj")
              eq_refl eq_refl eq_refl eq_refl eq_refl eq_refl eq_refl
              eq_refl eq_refl eq_refl eq_refl eq_refl eq_refl)
    as [A [_ [B _]]].
  split; [exact A | exact B].
Defined.

Lemma classification_selects_table_witness :
  submissions (db (snd (upload0 quiet proj_definition db_sub)))
    = submissions db_sub.
Proof.
  exact (proj1 (classification_selects_table compact real_text quiet
                  proj_definition db_sub "Proj-1" _ [] eq_refl) eq_refl).
Defined.

Lemma failing_store_never_success_witness :
  In (status (fst (upload0 disk_full sub_1 db_proj))) [400%Z; 500%Z] /\
  db (snd (upload0 disk_full sub_1 db_proj)) = db_proj.
Proof.
  exact (failing_store_never_success compact real_text disk_full sub_1
           db_proj "SQLITE_FULL" [] eq_refl).
Defined.

Lemma insert_fault_is_rethrown_witness :
  fst (upload0 disk_full_on_insert sub_1 db_proj)
    = send 500 "Internal Server Error" /\
  thrown compact real_text disk_full_on_insert sub_1 db_proj
    = Some (SqliteError "SQLITE_FULL") /\
  db (snd (upload0 disk_full_on_insert sub_1 db_proj)) = db_proj.
Proof.
  exact (insert_fault_is_rethrown compact real_text disk_full_on_insert
           sub_1 db_proj "Sub-1" _ [] _ (SqlText "Proj") "SQLITE_FULL" []
           eq_refl eq_refl eq_refl eq_refl eq_refl eq_refl eq_refl eq_refl).
Defined.

Lemma four_fields_decide_answer_witness :
  fst (upload0 quiet sub_1 db_sub) = fst (upload0 quiet sub_1_note db_sub).
Proof.
  refine (four_fields_decide_answer compact real_text quiet sub_1 sub_1_note
            db_sub "Sub-1" _ _ [] [] eq_refl eq_refl _ _
            eq_refl eq_refl eq_refl eq_refl); discriminate.
Defined.

Lemma startup_succeeds_iff_witness :
  startup (boot_ok false) (mk_disk false None)
    = Err (TypeError
        "Cannot open database because the directory does not exist").
Proof.
  apply (proj2 (startup_succeeds_iff (boot_ok false) (mk_disk false None)
                  (conj eq_refl (conj eq_refl eq_refl))));
    reflexivity.
Defined.

Lemma startup_keeps_rows_witness :
  tables (stored db_sub) = Some db_sub /\
  startup (boot_ok false) (stored db_sub) = Ok (stored db_sub).
Proof.
  destruct (startup_keeps_rows (boot_ok true) (stored db_sub) (stored db_sub)
              eq_refl)
    as [T R].
  split; [exact T | exact (R (boot_ok false)
                             (conj eq_refl (conj eq_refl eq_refl)))].
Defined.
